(** * Dashboard validator (package dashboard): model and verified properties

    Shallow embedding of the Go package [dashboard]: the decoded dashboard
    document, [ValidateDashboard] with its error accumulator and its two
    seen-maps, [isQueryPanel], [GetDashboardMetadata],
    [ProcessTemplateVariables] and [ValidateFile]; of [LoadValues] and
    [GenerateManifests] of the package [helm]; and of [validateDashboards]
    and the integer part of [formatFileSize] of the command
    [dashboard-manager].  The operating system and the decoders are an
    interface ([Host]).

    Conventions.
    - Go [int] is modelled by [Z]. The validator only compares such values
      with [0] and prints them; no arithmetic is performed on them, so the
      64-bit wrap-around never comes into play.
    - Go [string] is modelled by [string] (a sequence of bytes).
    - A Go [error] result is an [option string]: [None] is [nil], [Some msg]
      is an error value whose [Error()] text is [msg].
    - A [map[K]bool] is a [gmap K bool]; indexing a missing key yields the
      zero value [false]. *)

From Stdlib Require Import Ascii.
From stdpp Require Import base numbers list strings gmap fin_maps pretty.

Open Scope string_scope.
Open Scope list_scope.
Open Scope Z_scope.

(** ** Data model *)

(** A Go [interface{}] as produced by [encoding/json]. A JSON number is
    decoded to a [float64]; only its 64-bit pattern is kept, since no
    function of the package inspects it. *)
#[local] Unset Elimination Schemes.
Inductive any : Type :=
  | any_nil
  | any_bool (b : bool)
  | any_float64 (bits : Z)
  | any_string (s : string)
  | any_slice (l : list any)
  | any_map (m : list (string * any)).
#[local] Set Elimination Schemes.

Record Target := mkTarget {
  Target_Expr : string;
  Target_RefID : string;
  Target_IntervalFactor : Z;
  Target_Step : Z
}.

Record GridPos := mkGridPos {
  GridPos_H : Z;
  GridPos_W : Z;
  GridPos_X : Z;
  GridPos_Y : Z
}.

Record FieldDefaults := mkFieldDefaults {
  FieldDefaults_Unit : string;
  FieldDefaults_DisplayName : string;
  FieldDefaults_Custom : gmap string any
}.

Record FieldConfig := mkFieldConfig {
  FieldConfig_Defaults : FieldDefaults
}.

Record Panel := mkPanel {
  Panel_ID : Z;
  Panel_Title : string;
  Panel_Type : string;
  Panel_Targets : list Target;
  Panel_GridPos : GridPos;
  Panel_FieldConfig : FieldConfig
}.

Record TimeRange := mkTimeRange {
  TimeRange_From : string;
  TimeRange_To : string
}.

Record TemplateVariable := mkTemplateVariable {
  TemplateVariable_Name : string;
  TemplateVariable_Type : string;
  TemplateVariable_Label : string;
  TemplateVariable_Query : string;
  TemplateVariable_Refresh : Z
}.

Record Templating := mkTemplating {
  Templating_List : list TemplateVariable
}.

Record Dashboard := mkDashboard {
  Dashboard_ID : any;
  Dashboard_Title : string;
  Dashboard_Description : string;
  Dashboard_Tags : list string;
  Dashboard_Timezone : string;
  Dashboard_Panels : list Panel;
  Dashboard_Time : TimeRange;
  Dashboard_Templating : Templating;
  Dashboard_Refresh : any;
  Dashboard_SchemaVersion : Z;
  Dashboard_Version : any;
  Dashboard_UID : string
}.

Record ValidationError := mkValidationError {
  Field : string;
  Message : string
}.

Global Instance ValidationError_eq_dec : EqDecision ValidationError.
Proof. solve_decision. Defined.

(** ** Library functions used by the package *)

(** [fmt.Sprintf("%d", n)]: the decimal rendering of an integer. *)
Definition fmt_d (n : Z) : string := pretty n.

(** The built-in [append(s, x)] on a slice. *)
Definition append {A} (s : list A) (x : A) : list A := (s ++ [x])%list.

(** [m[k]] on a [map[K]bool]: the zero value [false] for a missing key. *)
Definition index_bool `{Countable K} (m : gmap K bool) (k : K) : bool :=
  default false (m !! k).

(** [strings.Join(elems, sep)]. *)
Fixpoint Join (elems : list string) (sep : string) : string :=
  match elems with
  | [] => ""
  | [e] => e
  | e :: rest => e +:+ sep +:+ Join rest sep
  end.

(** [strings.HasPrefix(s, prefix)]. *)
Fixpoint HasPrefix (s prefix : string) : bool :=
  match prefix, s with
  | EmptyString, _ => true
  | String _ _, EmptyString => false
  | String a prefix', String b s' => bool_decide (a = b) && HasPrefix s' prefix'
  end.

(** [strings.ReplaceAll(s, old, new)] for a non-empty [old]: the
    non-overlapping occurrences of [old] are replaced from left to right.
    [skip] counts the bytes of the occurrence just replaced that are still
    to be dropped. *)
Fixpoint replace_from (s old new : string) (skip : nat) : string :=
  match s with
  | EmptyString => EmptyString
  | String c s' =>
      match skip with
      | S skip' => replace_from s' old new skip'
      | O =>
          if HasPrefix s old
          then new +:+ replace_from s' old new (Nat.pred (String.length old))
          else String c (replace_from s' old new O)
      end
  end.

(** With an empty [old], Go inserts [new] at the start and after every UTF-8
    sequence; this is rendered byte-wise here.  [ProcessTemplateVariables]
    never reaches this branch: both of its patterns start with a dollar. *)
Fixpoint intersperse_all (s new : string) : string :=
  match s with
  | EmptyString => new
  | String c s' => new +:+ String c (intersperse_all s' new)
  end.

Definition ReplaceAll (s old new : string) : string :=
  match old with
  | EmptyString => intersperse_all s new
  | String _ _ => replace_from s old new O
  end.

(** ** ValidationError.Error *)

(** [fmt.Sprintf("%s: %s", e.Field, e.Message)] *)
Definition Error (e : ValidationError) : string :=
  Field e +:+ ": " +:+ Message e.

(** ** isQueryPanel *)

Definition queryPanels : gmap string bool :=
  <["timeseries" := true]> (
  <["stat" := true]> (
  <["gauge" := true]> (
  <["bargauge" := true]> (
  <["table" := true]> (
  <["heatmap" := true]> (
  <["piechart" := true]> (
  <["graph" := true]> (
  <["singlestat" := true]> ∅)))))))).

Definition isQueryPanel (panelType : string) : bool :=
  index_bool queryPanels panelType.

(** ** ValidateDashboard *)

(** The loop [for j, target := range panel.Targets] of panel [i], started
    at index [j] with the accumulator [errors]. *)
Fixpoint validateTargets (i j : nat) (targets : list Target)
    (errors : list ValidationError) : list ValidationError :=
  match targets with
  | [] => errors
  | target :: rest =>
      let errors :=
        if decide (Target_RefID target = "") then
          append errors {| Field := "panels[" +:+ fmt_d (Z.of_nat i) +:+ "].targets["
                                   +:+ fmt_d (Z.of_nat j) +:+ "].refId";
                         Message := "target refId is required" |}
        else errors in
      validateTargets i (S j) rest errors
  end.

(** One iteration of the loop [for i, panel := range dashboard.Panels]. *)
Definition validatePanel (i : nat) (panel : Panel)
    (panelIDs : gmap Z bool) (errors : list ValidationError)
    : gmap Z bool * list ValidationError :=
  let errors :=
    if index_bool panelIDs (Panel_ID panel) then
      append errors {| Field := "panels[" +:+ fmt_d (Z.of_nat i) +:+ "].id";
                     Message := "duplicate panel ID: " +:+ fmt_d (Panel_ID panel) |}
    else errors in
  let panelIDs := <[Panel_ID panel := true]> panelIDs in
  let errors :=
    if decide (Panel_Type panel = "") then
      append errors {| Field := "panels[" +:+ fmt_d (Z.of_nat i) +:+ "].type";
                     Message := "panel type is required" |}
    else errors in
  let errors :=
    if bool_decide (GridPos_W (Panel_GridPos panel) ≤ 0)
       || bool_decide (GridPos_H (Panel_GridPos panel) ≤ 0) then
      append errors {| Field := "panels[" +:+ fmt_d (Z.of_nat i) +:+ "].gridPos";
                     Message := "panel width and height must be positive" |}
    else errors in
  let errors :=
    if isQueryPanel (Panel_Type panel)
       && bool_decide (length (Panel_Targets panel) = 0%nat) then
      append errors {| Field := "panels[" +:+ fmt_d (Z.of_nat i) +:+ "].targets";
                     Message := "query panels must have at least one target" |}
    else errors in
  (panelIDs, validateTargets i 0 (Panel_Targets panel) errors).

Fixpoint validatePanels (i : nat) (panels : list Panel)
    (panelIDs : gmap Z bool) (errors : list ValidationError)
    : list ValidationError :=
  match panels with
  | [] => errors
  | panel :: rest =>
      let '(panelIDs, errors) := validatePanel i panel panelIDs errors in
      validatePanels (S i) rest panelIDs errors
  end.

(** One iteration of [for i, variable := range dashboard.Templating.List]. *)
Definition validateVariable (i : nat) (variable : TemplateVariable)
    (varNames : gmap string bool) (errors : list ValidationError)
    : gmap string bool * list ValidationError :=
  let errors :=
    if decide (TemplateVariable_Name variable = "") then
      append errors {| Field := "templating.list[" +:+ fmt_d (Z.of_nat i) +:+ "].name";
                     Message := "variable name is required" |}
    else errors in
  let errors :=
    if index_bool varNames (TemplateVariable_Name variable) then
      append errors {| Field := "templating.list[" +:+ fmt_d (Z.of_nat i) +:+ "].name";
                     Message := "duplicate variable name: "
                                +:+ TemplateVariable_Name variable |}
    else errors in
  let varNames := <[TemplateVariable_Name variable := true]> varNames in
  let errors :=
    if decide (TemplateVariable_Type variable = "") then
      append errors {| Field := "templating.list[" +:+ fmt_d (Z.of_nat i) +:+ "].type";
                     Message := "variable type is required" |}
    else errors in
  (varNames, errors).

Fixpoint validateVariables (i : nat) (variables : list TemplateVariable)
    (varNames : gmap string bool) (errors : list ValidationError)
    : list ValidationError :=
  match variables with
  | [] => errors
  | variable :: rest =>
      let '(varNames, errors) := validateVariable i variable varNames errors in
      validateVariables (S i) rest varNames errors
  end.

(** The slice [errors] as it stands when the function reaches its final
    [if len(errors) > 0]. *)
Definition validationErrors (dashboard : Dashboard) : list ValidationError :=
  let errors := [] in
  let errors :=
    if decide (Dashboard_Title dashboard = "") then
      append errors {| Field := "title"; Message := "title is required" |}
    else errors in
  let errors :=
    if decide (Dashboard_SchemaVersion dashboard = 0) then
      append errors {| Field := "schemaVersion";
                     Message := "schemaVersion is required" |}
    else errors in
  let errors :=
    if decide (length (Dashboard_Panels dashboard) = 0%nat) then
      append errors {| Field := "panels";
                     Message := "at least one panel is required" |}
    else errors in
  let panelIDs : gmap Z bool := ∅ in
  let errors := validatePanels 0 (Dashboard_Panels dashboard) panelIDs errors in
  let varNames : gmap string bool := ∅ in
  validateVariables 0 (Templating_List (Dashboard_Templating dashboard))
    varNames errors.

(** The loop [for _, err := range errors] collecting [err.Error()]. *)
Definition collectMessages (errors : list ValidationError) : list string :=
  foldl (λ messages err, append messages (Error err)) [] errors.

Definition ValidateDashboard (dashboard : Dashboard) : option string :=
  let errors := validationErrors dashboard in
  if decide (0 < length errors)%nat then
    Some ("validation failed: " +:+ Join (collectMessages errors) "; ")
  else None.

(** ** GetDashboardMetadata *)

(** The dynamic values stored in the returned [map[string]interface{}]. *)
Inductive MetaValue :=
  | MetaString (s : string)
  | MetaStrings (l : list string)
  | MetaInt (n : Z)
  | MetaBool (b : bool).

Definition GetDashboardMetadata (dashboard : Dashboard) : gmap string MetaValue :=
  <["title" := MetaString (Dashboard_Title dashboard)]> (
  <["description" := MetaString (Dashboard_Description dashboard)]> (
  <["uid" := MetaString (Dashboard_UID dashboard)]> (
  <["tags" := MetaStrings (Dashboard_Tags dashboard)]> (
  <["panels_count" := MetaInt (Z.of_nat (length (Dashboard_Panels dashboard)))]> (
  <["schema_version" := MetaInt (Dashboard_SchemaVersion dashboard)]> (
  <["has_templating" :=
      MetaBool (bool_decide
        (0 < length (Templating_List (Dashboard_Templating dashboard)))%nat)]> ∅)))))).

(** ** ProcessTemplateVariables *)

(** One iteration of [for variable, replacement := range replacements]. *)
Definition substituteVariable (result : string) (entry : string * string) : string :=
  let '(variable, replacement) := entry in
  let result := ReplaceAll result ("${" +:+ variable +:+ "}") replacement in
  ReplaceAll result ("$" +:+ variable) replacement.

(** The loop run over the entries in the order [order]. *)
Definition ProcessTemplateVariables_in (content : string)
    (order : list (string * string)) : string :=
  foldl substituteVariable content order.

(** Go leaves the iteration order of a map unspecified: a call may visit the
    entries in any order, so the function is a relation between its
    arguments and its possible results. *)
Definition ProcessTemplateVariables (content : string)
    (replacements : gmap string string) (result : string) : Prop :=
  ∃ order, order ≡ₚ map_to_list replacements
           ∧ result = ProcessTemplateVariables_in content order.

(** ** Test dashboards *)

Definition emptyFieldConfig : FieldConfig :=
  mkFieldConfig (mkFieldDefaults "" "" ∅).

Definition panel_of (id : Z) (type : string) (w h : Z) (targets : list Target) : Panel :=
  mkPanel id "" type targets (mkGridPos h w 0 0) emptyFieldConfig.

Definition dashboard_of (title : string) (schemaVersion : Z)
    (panels : list Panel) (variables : list TemplateVariable) : Dashboard :=
  mkDashboard any_nil title "" [] "" panels (mkTimeRange "" "")
    (mkTemplating variables) any_nil schemaVersion any_nil "".

Definition scenarioA : Dashboard :=
  dashboard_of "CPU Usage" 1
    [panel_of 1 "timeseries" 12 8 [mkTarget "" "A" 0 0]] [].

(** * Vocabulary of the properties *)

(** ** Bytes of a string *)

(** No byte of [s] is the closing bracket. *)
Fixpoint bracket_free (s : string) : Prop :=
  match s with
  | EmptyString => True
  | String c s' => c ≠ "]"%char ∧ bracket_free s'
  end.

(** No byte of [s] is the dollar sign. *)
Fixpoint dollar_free (s : string) : Prop :=
  match s with
  | EmptyString => True
  | String c s' => c ≠ "$"%char ∧ dollar_free s'
  end.

(** ** Violations: the error slice read back as structured data

    Every entry the validator appends is the rendering of one rule
    violation.  The lists below are built by recursion on the panels and
    variables, with the seen-maps replaced by the list of keys met so far;
    [validationErrors_render] shows that the accumulator loops compute
    exactly their rendering. *)

Inductive Violation :=
  | MissingTitle
  | MissingSchemaVersion
  | EmptyPanels
  | DuplicatePanelID (i : nat) (id : Z)
  | MissingPanelType (i : nat)
  | InvalidGridPos (i : nat)
  | MissingTargets (i : nat)
  | MissingRefID (i j : nat)
  | MissingVarName (i : nat)
  | DuplicateVarName (i : nat) (name : string)
  | MissingVarType (i : nat).

Global Instance Violation_eq_dec : EqDecision Violation.
Proof. solve_decision. Defined.

Definition render (v : Violation) : ValidationError :=
  match v with
  | MissingTitle =>
      {| Field := "title"; Message := "title is required" |}
  | MissingSchemaVersion =>
      {| Field := "schemaVersion"; Message := "schemaVersion is required" |}
  | EmptyPanels =>
      {| Field := "panels"; Message := "at least one panel is required" |}
  | DuplicatePanelID i id =>
      {| Field := "panels[" +:+ fmt_d (Z.of_nat i) +:+ "].id";
         Message := "duplicate panel ID: " +:+ fmt_d id |}
  | MissingPanelType i =>
      {| Field := "panels[" +:+ fmt_d (Z.of_nat i) +:+ "].type";
         Message := "panel type is required" |}
  | InvalidGridPos i =>
      {| Field := "panels[" +:+ fmt_d (Z.of_nat i) +:+ "].gridPos";
         Message := "panel width and height must be positive" |}
  | MissingTargets i =>
      {| Field := "panels[" +:+ fmt_d (Z.of_nat i) +:+ "].targets";
         Message := "query panels must have at least one target" |}
  | MissingRefID i j =>
      {| Field := "panels[" +:+ fmt_d (Z.of_nat i) +:+ "].targets["
                  +:+ fmt_d (Z.of_nat j) +:+ "].refId";
         Message := "target refId is required" |}
  | MissingVarName i =>
      {| Field := "templating.list[" +:+ fmt_d (Z.of_nat i) +:+ "].name";
         Message := "variable name is required" |}
  | DuplicateVarName i name =>
      {| Field := "templating.list[" +:+ fmt_d (Z.of_nat i) +:+ "].name";
         Message := "duplicate variable name: " +:+ name |}
  | MissingVarType i =>
      {| Field := "templating.list[" +:+ fmt_d (Z.of_nat i) +:+ "].type";
         Message := "variable type is required" |}
  end.

(** [when b x] is the singleton [x] if [b] holds and the empty list otherwise. *)
Definition when {A} (b : bool) (x : A) : list A := if b then [x] else [].

Fixpoint targetViolations (i j : nat) (targets : list Target) : list Violation :=
  match targets with
  | [] => []
  | target :: rest =>
      when (bool_decide (Target_RefID target = "")) (MissingRefID i j)
      ++ targetViolations i (S j) rest
  end.

Definition badGrid (panel : Panel) : bool :=
  bool_decide (GridPos_W (Panel_GridPos panel) ≤ 0)
  || bool_decide (GridPos_H (Panel_GridPos panel) ≤ 0).

Definition panelViolations (seen : list Z) (i : nat) (panel : Panel) : list Violation :=
  when (bool_decide (Panel_ID panel ∈ seen)) (DuplicatePanelID i (Panel_ID panel))
  ++ when (bool_decide (Panel_Type panel = "")) (MissingPanelType i)
  ++ when (badGrid panel) (InvalidGridPos i)
  ++ when (isQueryPanel (Panel_Type panel)
           && bool_decide (length (Panel_Targets panel) = 0%nat)) (MissingTargets i)
  ++ targetViolations i 0 (Panel_Targets panel).

Fixpoint panelsViolations (seen : list Z) (i : nat) (panels : list Panel)
    : list Violation :=
  match panels with
  | [] => []
  | panel :: rest =>
      panelViolations seen i panel
      ++ panelsViolations (Panel_ID panel :: seen) (S i) rest
  end.

Definition varViolations (seen : list string) (i : nat) (variable : TemplateVariable)
    : list Violation :=
  when (bool_decide (TemplateVariable_Name variable = "")) (MissingVarName i)
  ++ when (bool_decide (TemplateVariable_Name variable ∈ seen))
          (DuplicateVarName i (TemplateVariable_Name variable))
  ++ when (bool_decide (TemplateVariable_Type variable = "")) (MissingVarType i).

Fixpoint varsViolations (seen : list string) (i : nat)
    (variables : list TemplateVariable) : list Violation :=
  match variables with
  | [] => []
  | variable :: rest =>
      varViolations seen i variable
      ++ varsViolations (TemplateVariable_Name variable :: seen) (S i) rest
  end.

Definition headViolations (dashboard : Dashboard) : list Violation :=
  when (bool_decide (Dashboard_Title dashboard = "")) MissingTitle
  ++ when (bool_decide (Dashboard_SchemaVersion dashboard = 0)) MissingSchemaVersion
  ++ when (bool_decide (length (Dashboard_Panels dashboard) = 0%nat)) EmptyPanels.

Definition violations (dashboard : Dashboard) : list Violation :=
  headViolations dashboard
  ++ panelsViolations [] 0 (Dashboard_Panels dashboard)
  ++ varsViolations [] 0 (Templating_List (Dashboard_Templating dashboard)).

(** A seen-map [m] stands for the keys of [seen]. *)
Definition tracks `{Countable K} (m : gmap K bool) (seen : list K) : Prop :=
  ∀ k, index_bool m k = bool_decide (k ∈ seen).

(** The violations reported under the path [templating.list[i].name]. *)
Definition aboutVarName (i : nat) (v : Violation) : Prop :=
  match v with
  | MissingVarName k | DuplicateVarName k _ => k = i
  | _ => False
  end.

Global Instance aboutVarName_dec i v : Decision (aboutVarName i v).
Proof. destruct v; simpl; apply _. Defined.

(** The duplicate reports for the panel id [id]. *)
Definition duplicateOf (id : Z) (v : Violation) : Prop :=
  match v with
  | DuplicatePanelID _ k => k = id
  | _ => False
  end.

Global Instance duplicateOf_dec id v : Decision (duplicateOf id v).
Proof. destruct v; simpl; apply _. Defined.

(** The panel, respectively the template variable, a violation is about. *)
Definition panelIndex (v : Violation) : option nat :=
  match v with
  | DuplicatePanelID i _ | MissingPanelType i | InvalidGridPos i
  | MissingTargets i | MissingRefID i _ => Some i
  | _ => None
  end.

Definition varIndex (v : Violation) : option nat :=
  match v with
  | MissingVarName i | DuplicateVarName i _ | MissingVarType i => Some i
  | _ => None
  end.

(** ** Sets, indices and conditions the properties speak of *)

(** The closed set of panel types that require targets, as the
    specification lists it. *)
Definition queryPanelTypes : list string :=
  ["timeseries"; "stat"; "gauge"; "bargauge"; "table"; "heatmap"; "piechart";
   "graph"; "singlestat"].

(** The indices, in ascending order, of the panels whose id is [id]. *)
Definition occurrences (id : Z) (panels : list Panel) : list nat :=
  filter (λ i, Panel_ID <$> panels !! i = Some id) (seq 0 (length panels)).

(** The same indices, numbered from [i], by recursion on the panels. *)
Fixpoint occurrences_from (i : nat) (id : Z) (panels : list Panel) : list nat :=
  match panels with
  | [] => []
  | panel :: rest =>
      (if decide (Panel_ID panel = id) then [i] else [])
      ++ occurrences_from (S i) id rest
  end.

Definition targetOK (target : Target) : Prop := Target_RefID target ≠ "".

(** Every rule on one panel, duplicate ids apart. *)
Definition panelOK (panel : Panel) : Prop :=
  0 < GridPos_W (Panel_GridPos panel)
  ∧ 0 < GridPos_H (Panel_GridPos panel)
  ∧ Panel_Type panel ≠ ""
  ∧ (isQueryPanel (Panel_Type panel) = true → Panel_Targets panel ≠ [])
  ∧ Forall targetOK (Panel_Targets panel).

(** Every rule on one template variable, duplicate names apart. *)
Definition variableOK (variable : TemplateVariable) : Prop :=
  TemplateVariable_Name variable ≠ "" ∧ TemplateVariable_Type variable ≠ "".

Definition wellFormed (dashboard : Dashboard) : Prop :=
  Dashboard_Title dashboard ≠ ""
  ∧ Dashboard_SchemaVersion dashboard ≠ 0
  ∧ Dashboard_Panels dashboard ≠ []
  ∧ Forall panelOK (Dashboard_Panels dashboard)
  ∧ NoDup (Panel_ID <$> Dashboard_Panels dashboard)
  ∧ Forall variableOK (Templating_List (Dashboard_Templating dashboard))
  ∧ NoDup (TemplateVariable_Name
             <$> Templating_List (Dashboard_Templating dashboard)).

(** The conditions as the specification words them: the refIds are
    constrained for query panels only, and nothing is asked of the template
    variables besides distinct names. *)
Definition panelOK_as_claimed (panel : Panel) : Prop :=
  0 < GridPos_W (Panel_GridPos panel)
  ∧ 0 < GridPos_H (Panel_GridPos panel)
  ∧ Panel_Type panel ≠ ""
  ∧ (isQueryPanel (Panel_Type panel) = true →
     Panel_Targets panel ≠ [] ∧ Forall targetOK (Panel_Targets panel)).

Definition wellFormed_as_claimed (dashboard : Dashboard) : Prop :=
  Dashboard_Title dashboard ≠ ""
  ∧ Dashboard_SchemaVersion dashboard ≠ 0
  ∧ Dashboard_Panels dashboard ≠ []
  ∧ Forall panelOK_as_claimed (Dashboard_Panels dashboard)
  ∧ NoDup (Panel_ID <$> Dashboard_Panels dashboard)
  ∧ NoDup (TemplateVariable_Name
             <$> Templating_List (Dashboard_Templating dashboard)).

(** The facts the specification lists, with the dashboard's [id] field. *)
Definition claimedFacts (dashboard : Dashboard)
    : string * string * any * list string * nat * Z * bool :=
  (Dashboard_Title dashboard, Dashboard_Description dashboard,
   Dashboard_ID dashboard, Dashboard_Tags dashboard,
   length (Dashboard_Panels dashboard), Dashboard_SchemaVersion dashboard,
   bool_decide (Templating_List (Dashboard_Templating dashboard) ≠ [])).

(** The facts the function reads, with the [uid] field. *)
Definition projectedFacts (dashboard : Dashboard)
    : string * string * string * list string * nat * Z * bool :=
  (Dashboard_Title dashboard, Dashboard_Description dashboard,
   Dashboard_UID dashboard, Dashboard_Tags dashboard,
   length (Dashboard_Panels dashboard), Dashboard_SchemaVersion dashboard,
   bool_decide (Templating_List (Dashboard_Templating dashboard) ≠ [])).

Definition metadataKeys : gset string :=
  {[ "title"; "description"; "uid"; "tags"; "panels_count"; "schema_version";
     "has_templating" ]}.

(** ** Further test dashboards *)

(** A panel that is zero wide and, behind it, a well-sized one. *)
Definition gridDashboard : Dashboard :=
  dashboard_of "Grid" 1
    [panel_of 1 "text" 0 (-3) []; panel_of 2 "text" 12 8 []] [].

Definition targetsDashboard : Dashboard :=
  dashboard_of "Targets" 1
    [panel_of 1 "timeseries" 12 8 []; panel_of 2 "Table" 12 8 [];
     panel_of 3 "text" 12 8 []] [].

(** A dashboard that breaks every dashboard-level rule and more. *)
Definition untitledDashboard : Dashboard :=
  dashboard_of "" 0
    [panel_of 5 "" 0 0 [mkTarget "" "" 0 0]; panel_of 5 "stat" 1 1 []]
    [mkTemplateVariable "" "" "" "" 0].

Definition namelessDashboard : Dashboard :=
  dashboard_of "Vars" 1 [panel_of 1 "text" 1 1 []]
    [mkTemplateVariable "" "query" "" "" 0;
     mkTemplateVariable "region" "query" "" "" 0;
     mkTemplateVariable "" "query" "" "" 0].

(** Scenario A with a template variable that has a name but no type. *)
Definition untypedVariableDashboard : Dashboard :=
  dashboard_of "CPU Usage" 1
    [panel_of 1 "timeseries" 12 8 [mkTarget "" "A" 0 0]]
    [mkTemplateVariable "namespace" "" "" "" 0].

(** A panel that is not of a query type and has a target without refId. *)
Definition textTargetDashboard : Dashboard :=
  dashboard_of "CPU Usage" 1
    [panel_of 1 "text" 12 8 [mkTarget "up" "" 0 0]] [].

(** A dashboard that passes validation and one that does not (its only
    panel has no type), with the same title, uid, tags, panel count and
    schema version. *)
Definition passingDashboard : Dashboard :=
  mkDashboard (any_float64 7) "Latency" "p99" ["slo"] "utc"
    [panel_of 1 "text" 12 8 []] (mkTimeRange "now-1h" "now")
    (mkTemplating []) any_nil 39 any_nil "lat-01".

Definition failingDashboard : Dashboard :=
  mkDashboard (any_float64 7) "Latency" "p99" ["slo"] "utc"
    [panel_of 1 "" 12 8 []] (mkTimeRange "now-1h" "now")
    (mkTemplating []) any_nil 39 any_nil "lat-01".

(** The same dashboard under two values of its [id] field, and under
    another [uid]. *)
Definition renumberedDashboard : Dashboard :=
  mkDashboard (any_float64 8) "Latency" "p99" ["slo"] "utc"
    [panel_of 1 "text" 12 8 []] (mkTimeRange "now-1h" "now")
    (mkTemplating []) any_nil 39 any_nil "lat-01".

Definition renamedDashboard : Dashboard :=
  mkDashboard (any_float64 7) "Latency" "p99" ["slo"] "utc"
    [panel_of 1 "text" 12 8 []] (mkTimeRange "now-1h" "now")
    (mkTemplating []) any_nil 39 any_nil "lat-02".

(** ** Further vocabulary of the validator *)

(** The duplicate report under the path [panels[i].id]. *)
Definition aboutPanelID (i : nat) (v : Violation) : Prop :=
  match v with
  | DuplicatePanelID k _ => k = i
  | _ => False
  end.

Global Instance aboutPanelID_dec i v : Decision (aboutPanelID i v).
Proof. destruct v; simpl; apply _. Defined.

(** The three dashboard-level violations. *)
Definition dashboardLevel (v : Violation) : Prop :=
  match v with
  | MissingTitle | MissingSchemaVersion | EmptyPanels => True
  | _ => False
  end.

Global Instance dashboardLevel_dec v : Decision (dashboardLevel v).
Proof. destruct v; simpl; apply _. Defined.

(** What the validator reads of a panel, of a template variable and of a
    dashboard. *)
Definition panelView (panel : Panel) : Z * string * Z * Z * list string :=
  (Panel_ID panel, Panel_Type panel, GridPos_W (Panel_GridPos panel),
   GridPos_H (Panel_GridPos panel), Target_RefID <$> Panel_Targets panel).

Definition variableView (variable : TemplateVariable) : string * string :=
  (TemplateVariable_Name variable, TemplateVariable_Type variable).

Definition dashboardView (dashboard : Dashboard)
    : string * Z * list (Z * string * Z * Z * list string) * list (string * string) :=
  (Dashboard_Title dashboard, Dashboard_SchemaVersion dashboard,
   panelView <$> Dashboard_Panels dashboard,
   variableView <$> Templating_List (Dashboard_Templating dashboard)).

(** The violations of the panels, one block per panel. *)
Fixpoint panelBlocks (seen : list Z) (i : nat) (panels : list Panel)
    : list (list Violation) :=
  match panels with
  | [] => []
  | panel :: rest =>
      panelViolations seen i panel :: panelBlocks (Panel_ID panel :: seen) (S i) rest
  end.

Fixpoint varBlocks (seen : list string) (i : nat) (variables : list TemplateVariable)
    : list (list Violation) :=
  match variables with
  | [] => []
  | variable :: rest =>
      varViolations seen i variable
      :: varBlocks (TemplateVariable_Name variable :: seen) (S i) rest
  end.

(** Scenario D: two variables named [namespace]. *)
Definition scenarioD : Dashboard :=
  dashboard_of "D" 1 [panel_of 1 "text" 1 1 []]
    [mkTemplateVariable "namespace" "query" "" "" 0;
     mkTemplateVariable "namespace" "query" "" "" 0].

(** [passingDashboard] with every field the validator does not read
    changed. *)
Definition scenarioE : Dashboard :=
  mkDashboard (any_string "x") "Latency" "" ["a"; "b"] "browser"
    [mkPanel 1 "Notes" "text" [] (mkGridPos 8 12 3 4)
       (mkFieldConfig (mkFieldDefaults "s" "d" ∅))]
    (mkTimeRange "now-6h" "now") (mkTemplating []) (any_bool true) 39
    (any_float64 2) "other".

(** ** formatFileSize (command dashboard-manager) *)

(** A Go [int64] value after an arithmetic operation: the mathematical
    result reduced to the signed 64-bit range. *)
Definition wrap64 (z : Z) : Z := (z + 2 ^ 63) `mod` 2 ^ 64 - 2 ^ 63.

(** The loop [for n := size / unit; n >= unit; n /= unit], run on the state
    [(n, div, exp)] for at most [fuel] iterations; [None] when the fuel runs
    out before the loop ends. *)
Fixpoint scaleLoop (fuel : nat) (n div exp : Z) : option (Z * Z) :=
  match fuel with
  | O => if decide (1024 ≤ n) then None else Some (div, exp)
  | S fuel =>
      if decide (1024 ≤ n)
      then scaleLoop fuel (n `quot` 1024) (wrap64 (div * 1024)) (exp + 1)
      else Some (div, exp)
  end.

(** The byte ["KMGTPE"[exp]]; [None] when the index is out of range, where
    Go panics. *)
Definition unitLetter (exp : Z) : option ascii :=
  if decide (0 ≤ exp) then String.get (Z.to_nat exp) "KMGTPE" else None.

(** What [formatFileSize] hands to its final [Sprintf]: the text itself for
    a size below one unit, and otherwise the operands of the format
    [%.1f %cB], the size, the divisor it is divided by as a [float64], and
    the unit letter.  The floating-point rendering is not modelled. *)
Inductive SizeText :=
  | SizeBytes (text : string)
  | SizeScaled (size div : Z) (unit : ascii).

(** [None] when the function panics.  The loop is given [log2 size]
    iterations, which it never uses up, as [n] is at least halved by each. *)
Definition formatFileSize (size : Z) : option SizeText :=
  if decide (size < 1024) then Some (SizeBytes (fmt_d size +:+ " B"))
  else
    match scaleLoop (Z.to_nat (Z.log2 size)) (size `quot` 1024) 1024 0 with
    | Some (div, exp) =>
        match unitLetter exp with
        | Some unit => Some (SizeScaled size div unit)
        | None => None
        end
    | None => None
    end.

(** ** Path and string functions of the Go library (Unix) *)

(** The slice [s[n:]], for [n] within the length of [s]. *)
Fixpoint string_drop (n : nat) (s : string) : string :=
  match n, s with
  | O, _ => s
  | S n, String _ s' => string_drop n s'
  | S _, EmptyString => EmptyString
  end.

(** The slice [s[:n]], for [n] within the length of [s]. *)
Fixpoint string_take (n : nat) (s : string) : string :=
  match n, s with
  | O, _ => EmptyString
  | S n, String c s' => String c (string_take n s')
  | S _, EmptyString => EmptyString
  end.

(** [strings.HasSuffix(s, suffix)]:
    [len(s) >= len(suffix) && s[len(s)-len(suffix):] == suffix]. *)
Definition HasSuffix (s suffix : string) : bool :=
  bool_decide (String.length suffix ≤ String.length s)%nat
  && bool_decide (string_drop (String.length s - String.length suffix) s = suffix).

(** [os.IsPathSeparator] on Unix. *)
Definition IsPathSeparator (c : ascii) : bool := bool_decide (c = "/"%char).

(** The loop of [filepath.Ext],
    [for i := len(path) - 1; i >= 0 && !os.IsPathSeparator(path[i]); i--],
    about to look at the index [k - 1]. *)
Fixpoint extScan (path : string) (k : nat) : string :=
  match k with
  | O => ""
  | S i =>
      match String.get i path with
      | Some c =>
          if IsPathSeparator c then ""
          else if bool_decide (c = "."%char) then string_drop i path
          else extScan path i
      | None => ""
      end
  end.

(** [filepath.Ext(path)]: the suffix that starts at the last dot of the last
    element of [path], empty if there is none. *)
Definition Ext (path : string) : string := extScan path (String.length path).

(** The first loop of [filepath.Base], which strips trailing slashes from a
    path of length [k]. *)
Fixpoint stripTrailingSlashes (path : string) (k : nat) : string :=
  match k with
  | O => ""
  | S i =>
      match String.get i path with
      | Some c =>
          if IsPathSeparator c then stripTrailingSlashes path i
          else string_take (S i) path
      | None => string_take (S i) path
      end
  end.

(** The second loop of [filepath.Base], which looks for the last separator,
    about to look at the index [k - 1], and the slice [path[i+1:]] that
    follows it. *)
Fixpoint lastElement (path : string) (k : nat) : string :=
  match k with
  | O => path
  | S i =>
      match String.get i path with
      | Some c =>
          if IsPathSeparator c then string_drop (S i) path
          else lastElement path i
      | None => path
      end
  end.

(** [filepath.Base(path)] (a Unix path has no volume name). *)
Definition Base (path : string) : string :=
  if decide (path = "") then "."
  else
    let path := stripTrailingSlashes path (String.length path) in
    let path := lastElement path (String.length path) in
    if decide (path = "") then "/" else path.

(** ** File selection and naming in GenerateManifests and the commands *)

(** The test of the walk callbacks of [validateDashboards] and
    [listDashboards]: [!d.IsDir() && strings.HasSuffix(path, ".json")]. *)
Definition selectedByCommands (path : string) (isDir : bool) : bool :=
  negb isDir && HasSuffix path ".json".

(** The test of the walk callback of [GenerateManifests]:
    [!d.IsDir() && filepath.Ext(path) == ".json"]. *)
Definition selectedByGenerate (path : string) (isDir : bool) : bool :=
  negb isDir && bool_decide (Ext path = ".json").

(** [dashboardName := filepath.Base(path)] followed by
    [dashboardName[:len(dashboardName)-5]]; [None] where the slice bound is
    negative and Go panics. *)
Definition dashboardName (path : string) : option string :=
  let dashboardName := Base path in
  if decide (5 ≤ String.length dashboardName)%nat
  then Some (string_take (String.length dashboardName - 5) dashboardName)
  else None.

(** No byte of [s] is the slash. *)
Fixpoint slash_free (s : string) : Prop :=
  match s with
  | EmptyString => True
  | String c s' => c ≠ "/"%char ∧ slash_free s'
  end.

(** Neither a dot nor a slash occurs in [s]. *)
Fixpoint plain (s : string) : Prop :=
  match s with
  | EmptyString => True
  | String c s' => c ≠ "."%char ∧ c ≠ "/"%char ∧ plain s'
  end.

(** ** The chart values (package helm) *)

Record Plugin := mkPlugin {
  Plugin_Name : string;
  Plugin_Version : string
}.

Record InstanceSelector := mkInstanceSelector {
  InstanceSelector_MatchLabels : gmap string string
}.

Record HelmTemplating := mkHelmTemplating {
  HelmTemplating_Enabled : bool
}.

Record DashboardConfig := mkDashboardConfig {
  DashboardConfig_Refresh : string;
  DashboardConfig_TimeFrom : string;
  DashboardConfig_Templating : HelmTemplating;
  DashboardConfig_Tags : list string
}.

Record ResourceSpec := mkResourceSpec {
  ResourceSpec_CPU : string;
  ResourceSpec_Memory : string
}.

Record Resources := mkResources {
  Resources_Limits : ResourceSpec;
  Resources_Requests : ResourceSpec
}.

Record RBAC := mkRBAC {
  RBAC_Create : bool;
  RBAC_ServiceAccountName : string
}.

Record GrafanaOperator := mkGrafanaOperator {
  GrafanaOperator_Enabled : bool;
  GrafanaOperator_APIVersion : string
}.

Record Values := mkValues {
  Values_Namespace : string;
  Values_CommonLabels : gmap string string;
  Values_CommonAnnotations : gmap string string;
  Values_GrafanaFolder : string;
  Values_DashboardFolders : list string;
  Values_DashboardNamespace : string;
  Values_Plugins : list Plugin;
  Values_InstanceSelector : InstanceSelector;
  Values_Dashboard : DashboardConfig;
  Values_Resources : Resources;
  Values_RBAC : RBAC;
  Values_GrafanaOperator : GrafanaOperator
}.

(** ** The collaborators outside the repository

    The operating system and the decoders enter as an interface.  An error
    value is its [Error()] text.  [filepath_WalkDir root] is the sequence of calls
    [filepath.WalkDir] makes to a callback that keeps returning [nil]: for
    each call the path, whether the entry is a directory, and the error the
    walk passes in, if any.  The callbacks of this repository return a
    non-nil error only to hand back the one they were passed, which ends
    the walk with that error. *)

Inductive result (A : Type) : Type :=
  | Ok (a : A)
  | Err (msg : string).
Arguments Ok {A} a.
Arguments Err {A} msg.

Record Visit := mkVisit {
  Visit_path : string;
  Visit_isDir : bool;
  Visit_err : option string
}.

Class Host := {
  (** [os.ReadFile] *)
  os_ReadFile : string → result string;
  (** [json.Unmarshal] into a [Dashboard] *)
  json_Unmarshal : string → result Dashboard;
  (** [yaml.Unmarshal] into a [Values] *)
  yaml_Unmarshal : string → result Values;
  (** [filepath.WalkDir] *)
  filepath_WalkDir : string → list Visit;
  (** [filepath.Join] of two elements *)
  filepath_Join : string → string → string
}.

(** The line feed. *)
Definition LF : string := String (ascii_of_nat 10) "".

(** ** ValidateFile (package dashboard) and LoadValues (package helm) *)

Definition ValidateFile `{Host} (filepath : string) : option string :=
  match os_ReadFile filepath with
  | Err err => Some ("failed to read file: " +:+ err)
  | Ok data =>
      match json_Unmarshal data with
      | Err err => Some ("invalid JSON: " +:+ err)
      | Ok dashboard => ValidateDashboard dashboard
      end
  end.

Definition LoadValues `{Host} (valuesPath : string) : result Values :=
  match os_ReadFile valuesPath with
  | Err err => Err ("failed to read values file: " +:+ err)
  | Ok data =>
      match yaml_Unmarshal data with
      | Err err => Err ("failed to parse values file: " +:+ err)
      | Ok values => Ok values
      end
  end.

(** ** validateDashboards (command dashboard-manager) *)

(** The variables the walk callback of [validateDashboards] closes over:
    what was printed so far, [totalDashboards] and [validationErrors]. *)
Record ValidateState := mkValidateState {
  stdout : string;
  totalDashboards : Z;
  collectedErrors : list string
}.

Definition print (text : string) (st : ValidateState) : ValidateState :=
  mkValidateState (stdout st +:+ text) (totalDashboards st) (collectedErrors st).

(** One call of the walk callback; the second component is the error it
    returns. *)
Definition validateVisit `{Host} (visit : Visit) (st : ValidateState)
    : ValidateState * option string :=
  match Visit_err visit with
  | Some err => (st, Some err)
  | None =>
      if negb (Visit_isDir visit) && HasSuffix (Visit_path visit) ".json" then
        let st := print ("   INFO: Validating: " +:+ Base (Visit_path visit) +:+ LF) st in
        match ValidateFile (Visit_path visit) with
        | Some err =>
            (mkValidateState (stdout st) (totalDashboards st)
               (append (collectedErrors st) (Visit_path visit +:+ ": " +:+ err)),
             None)
        | None =>
            (mkValidateState (stdout st) (wrap64 (totalDashboards st + 1))
               (collectedErrors st),
             None)
        end
      else (st, None)
  end.

(** [filepath.WalkDir(folderPath, callback)]: the calls are made in turn
    until one returns an error. *)
Fixpoint validateWalk `{Host} (visits : list Visit) (st : ValidateState)
    : ValidateState * option string :=
  match visits with
  | [] => (st, None)
  | visit :: rest =>
      match validateVisit visit st with
      | (st, Some err) => (st, Some err)
      | (st, None) => validateWalk rest st
      end
  end.

(** The loop [for _, folder := range values.DashboardFolders]; the second
    component is the error of the early [return]. *)
Fixpoint validateFolders `{Host} (dashboardsPath : string) (folders : list string)
    (st : ValidateState) : ValidateState * option string :=
  match folders with
  | [] => (st, None)
  | folder :: rest =>
      let folderPath := filepath_Join dashboardsPath folder in
      let st := print ("INFO: Checking folder: " +:+ folder +:+ LF) st in
      match validateWalk (filepath_WalkDir folderPath) st with
      | (st, Some err) =>
          (st, Some ("failed to walk folder " +:+ folder +:+ ": " +:+ err))
      | (st, None) => validateFolders dashboardsPath rest st
      end
  end.

(** The loop [for _, err := range validationErrors] of the report. *)
Definition printErrors (errors : list string) (st : ValidateState) : ValidateState :=
  foldl (λ st err, print ("   - " +:+ err +:+ LF) st) st errors.

(** The text written to the standard output and the error returned. *)
Definition validateDashboards `{Host} (chartPath : string) : string * option string :=
  let st := print ("INFO: Validating dashboard files..." +:+ LF)
                  (mkValidateState "" 0 []) in
  let dashboardsPath := filepath_Join chartPath "dashboards" in
  let valuesPath := filepath_Join chartPath "values.yaml" in
  match LoadValues valuesPath with
  | Err err => (stdout st, Some ("failed to load values.yaml: " +:+ err))
  | Ok values =>
      match validateFolders dashboardsPath (Values_DashboardFolders values) st with
      | (st, Some err) => (stdout st, Some err)
      | (st, None) =>
          let st := print (LF +:+ "Validation Summary:" +:+ LF) st in
          let st := print ("   OK: Valid dashboards: "
                           +:+ fmt_d (totalDashboards st) +:+ LF) st in
          let st := print ("   ERROR: Validation errors: "
                           +:+ fmt_d (Z.of_nat (length (collectedErrors st))) +:+ LF) st in
          if decide (0 < length (collectedErrors st))%nat then
            let st := print (LF +:+ "Validation Errors:" +:+ LF) st in
            let st := printErrors (collectedErrors st) st in
            (stdout st,
             Some ("validation failed with "
                   +:+ fmt_d (Z.of_nat (length (collectedErrors st))) +:+ " errors"))
          else
            let st := print ("OK: All dashboards are valid!" +:+ LF) st in
            (stdout st, None)
      end
  end.

(** The files a walk hands to [ValidateFile]: the paths of the visits that
    are not directories and end in [.json]. *)
Definition selectedPaths (visits : list Visit) : list string :=
  Visit_path <$> filter (λ visit, negb (Visit_isDir visit)
                                  && HasSuffix (Visit_path visit) ".json" = true) visits.

(** The files of all the folders of a chart, in the order they are
    visited. *)
Definition chartFiles `{Host} (dashboardsPath : string) (folders : list string)
    : list string :=
  folders ≫= (λ folder, selectedPaths (filepath_WalkDir (filepath_Join dashboardsPath folder))).

(** No walk of the folders is passed an error. *)
Definition walksClean `{Host} (dashboardsPath : string) (folders : list string) : Prop :=
  Forall (λ folder, Forall (λ visit, Visit_err visit = None)
                           (filepath_WalkDir (filepath_Join dashboardsPath folder))) folders.

(** The entries [validateDashboards] collects for a list of files: one per
    file that [ValidateFile] rejects, made of the path and the error. *)
Definition failures `{Host} (files : list string) : list string :=
  omap (λ path, (λ err, path +:+ ": " +:+ err) <$> ValidateFile path) files.

(** A small chart: the folder [core] holds a valid dashboard, an invalid
    one and a text file; the folder [extra] cannot be read. *)
Definition demoValues : Values :=
  mkValues "monitoring" ∅ ∅ "RHOAI" ["core"] "monitoring" []
    (mkInstanceSelector ∅) (mkDashboardConfig "30s" "now-1h" (mkHelmTemplating true) [])
    (mkResources (mkResourceSpec "" "") (mkResourceSpec "" ""))
    (mkRBAC true "grafana") (mkGrafanaOperator true "grafana.integreatly.org/v1beta1").

Definition demoHost : Host := {|
  os_ReadFile path :=
    if decide (path = "chart/values.yaml") then Ok "core"
    else if decide (path = "broken/values.yaml") then Ok "core,extra"
    else if decide (path = "chart/dashboards/core/cpu.json") then Ok "cpu"
    else if decide (path = "chart/dashboards/core/bad.json") then Ok "bad"
    else Err ("open " +:+ path +:+ ": no such file or directory");
  json_Unmarshal data :=
    if decide (data = "cpu") then Ok scenarioA
    else if decide (data = "bad") then Ok untypedVariableDashboard
    else Err "unexpected end of JSON input";
  yaml_Unmarshal data :=
    if decide (data = "core") then Ok demoValues
    else if decide (data = "core,extra") then
      Ok (mkValues "monitoring" ∅ ∅ "RHOAI" ["core"; "extra"] "monitoring" []
            (mkInstanceSelector ∅)
            (mkDashboardConfig "30s" "now-1h" (mkHelmTemplating true) [])
            (mkResources (mkResourceSpec "" "") (mkResourceSpec "" ""))
            (mkRBAC true "grafana")
            (mkGrafanaOperator true "grafana.integreatly.org/v1beta1"))
    else Err "yaml: unmarshal errors";
  filepath_WalkDir root :=
    if decide (root = "chart/dashboards/core") then
      [ mkVisit "chart/dashboards/core" true None;
        mkVisit "chart/dashboards/core/bad.json" false None;
        mkVisit "chart/dashboards/core/cpu.json" false None;
        mkVisit "chart/dashboards/core/notes.txt" false None ]
    else if decide (root = "broken/dashboards/core") then
      [ mkVisit "broken/dashboards/core" true None;
        mkVisit "chart/dashboards/core/bad.json" false None ]
    else
      [ mkVisit root false (Some ("lstat " +:+ root +:+ ": no such file or directory")) ];
  filepath_Join elem1 elem2 := elem1 +:+ "/" +:+ elem2
|}.

(** ** GenerateManifests (package helm) *)

(** The dynamic values stored in the manifests: strings, a
    [map[string]string], the [InstanceSelector] struct, a nested
    [map[string]interface{}] and the slice [[]map[string]interface{}]. *)
#[local] Unset Elimination Schemes.
Inductive Dyn : Type :=
  | DynString (s : string)
  | DynLabels (labels : gmap string string)
  | DynSelector (selector : InstanceSelector)
  | DynMap (entries : gmap string Dyn)
  | DynItems (items : list (gmap string Dyn)).
#[local] Set Elimination Schemes.

(** A step of Go code that may panic. *)
Inductive Step (A : Type) : Type :=
  | Panic
  | Done (a : A).
Arguments Panic {A}.
Arguments Done {A} a.

(** The map literal [manifest] of the walk callback. *)
Definition dashboardManifest (values : Values) (namespace folder dashboardName : string)
    : gmap string Dyn :=
  <["apiVersion" := DynString (GrafanaOperator_APIVersion (Values_GrafanaOperator values))]> (
  <["kind" := DynString "GrafanaDashboard"]> (
  <["metadata" := DynMap (
      <["name" := DynString ("dashboard-" +:+ dashboardName)]> (
      <["namespace" := DynString namespace]> (
      <["labels" := DynLabels (
          <["app.kubernetes.io/name" := "grafana-dashboards"]> (
          <["grafana-dashboard" := "true"]> (
          <["dashboard-folder" := folder]> ∅)))]> ∅)))]> (
  <["spec" := DynMap (
      <["name" := DynString dashboardName]> (
      <["folder" := DynString (Values_GrafanaFolder values)]> (
      <["instanceSelector" := DynSelector (Values_InstanceSelector values)]> ∅)))]>
  ∅))).

(** One call of the walk callback of [GenerateManifests] on the map
    [manifests]; the second component is the error it returns. *)
Definition generateVisit (values : Values) (namespace folder : string)
    (visit : Visit) (manifests : gmap string Dyn)
    : Step (gmap string Dyn * option string) :=
  match Visit_err visit with
  | Some err => Done (manifests, Some err)
  | None =>
      if negb (Visit_isDir visit) && bool_decide (Ext (Visit_path visit) = ".json") then
        match dashboardName (Visit_path visit) with
        | None => Panic
        | Some dashboardName =>
            let manifest := dashboardManifest values namespace folder dashboardName in
            match manifests !! "items" with
            | Some (DynItems items) =>
                Done (<["items" := DynItems (append items manifest)]> manifests, None)
            | _ => Panic
            end
        end
      else Done (manifests, None)
  end.

Fixpoint generateWalk (values : Values) (namespace folder : string)
    (visits : list Visit) (manifests : gmap string Dyn)
    : Step (gmap string Dyn * option string) :=
  match visits with
  | [] => Done (manifests, None)
  | visit :: rest =>
      match generateVisit values namespace folder visit manifests with
      | Panic => Panic
      | Done (manifests, Some err) => Done (manifests, Some err)
      | Done (manifests, None) => generateWalk values namespace folder rest manifests
      end
  end.

Fixpoint generateFolders `{Host} (values : Values) (namespace dashboardsPath : string)
    (folders : list string) (manifests : gmap string Dyn)
    : Step (result (gmap string Dyn)) :=
  match folders with
  | [] => Done (Ok manifests)
  | folder :: rest =>
      let folderPath := filepath_Join dashboardsPath folder in
      match generateWalk values namespace folder (filepath_WalkDir folderPath) manifests with
      | Panic => Panic
      | Done (_, Some err) =>
          Done (Err ("failed to process folder " +:+ folder +:+ ": " +:+ err))
      | Done (manifests, None) =>
          generateFolders values namespace dashboardsPath rest manifests
      end
  end.

Definition GenerateManifests `{Host} (chartPath namespace : string)
    : Step (result (gmap string Dyn)) :=
  let valuesPath := filepath_Join chartPath "values.yaml" in
  match LoadValues valuesPath with
  | Err err => Done (Err err)
  | Ok values =>
      let manifests : gmap string Dyn := ∅ in
      let manifests := <["apiVersion" := DynString "v1"]> manifests in
      let manifests := <["kind" := DynString "List"]> manifests in
      let manifests := <["items" := DynItems []]> manifests in
      let dashboardsPath := filepath_Join chartPath "dashboards" in
      generateFolders values namespace dashboardsPath
        (Values_DashboardFolders values) manifests
  end.

(** The name [GenerateManifests] gives the dashboard of a selected file:
    the base name of the path without its last five bytes. *)
Definition nameOf (path : string) : string :=
  string_take (String.length (Base path) - 5) (Base path).

(** The items expected for the folders of a chart: one per selected file,
    folder by folder, in the order of the walks. *)
Definition chartItems `{Host} (values : Values) (namespace dashboardsPath : string)
    (folders : list string) : list (gmap string Dyn) :=
  folders ≫= (λ folder,
    (λ path, dashboardManifest values namespace folder (nameOf path))
      <$> selectedPaths (filepath_WalkDir (filepath_Join dashboardsPath folder))).

(** The manifests map while the folders are walked: the two fixed keys and
    the items collected so far. *)
Definition manifestList (items : list (gmap string Dyn)) : gmap string Dyn :=
  <["items" := DynItems items]> (
  <["kind" := DynString "List"]> (
  <["apiVersion" := DynString "v1"]> ∅)).

(** The items of the selected files of one walk. *)
Definition walkItems (values : Values) (namespace folder : string)
    (visits : list Visit) : list (gmap string Dyn) :=
  (λ path, dashboardManifest values namespace folder (nameOf path))
    <$> selectedPaths visits.

(** * Auxiliary facts *)

Arguments fmt_d : simpl never.

(** ** Strings: decimal renderings and bracketed paths *)

Section decimal_strings.

Lemma bracket_free_app s t :
  bracket_free s → bracket_free t → bracket_free (s +:+ t).
Proof. induction s as [|c s IH]; simpl; [done|]. intros [??] ?; auto. Qed.

Lemma pretty_N_char_bracket n : pretty_N_char n ≠ "]"%char.
Proof. unfold pretty_N_char. by repeat case_match. Qed.

Lemma pretty_N_go_bracket_free (x : N) s :
  bracket_free s → bracket_free (pretty_N_go x s).
Proof.
  revert s. induction (N.lt_wf_0 x) as [x _ IH]; intros s Hs.
  destruct (decide (x = 0%N)) as [->|Hx]; [by rewrite pretty_N_go_0|].
  rewrite pretty_N_go_step by lia.
  apply IH; [apply N.div_lt; lia|].
  split; [apply pretty_N_char_bracket|done].
Qed.

Lemma pretty_N_bracket_free (x : N) : bracket_free (pretty x).
Proof.
  unfold pretty, pretty_N. case_decide; [by compute; split|].
  by apply pretty_N_go_bracket_free.
Qed.

Lemma fmt_d_bracket_free n : bracket_free (fmt_d n).
Proof.
  unfold fmt_d, pretty, pretty_Z. destruct n as [|p|p].
  - by compute; split.
  - apply pretty_N_bracket_free.
  - apply (bracket_free_app "-"); [by compute; split|].
    apply pretty_N_bracket_free.
Qed.

Lemma fmt_d_inj a b : fmt_d a = fmt_d b → a = b.
Proof. unfold fmt_d. apply (inj pretty). Qed.

(** Two bracket-free strings, each followed by a closing bracket, agree
    only when they and what follows agree. *)
Lemma bracket_delimits s1 s2 t1 t2 :
  bracket_free s1 → bracket_free s2 →
  s1 +:+ String "]" t1 = s2 +:+ String "]" t2 → s1 = s2 ∧ t1 = t2.
Proof.
  revert s2. induction s1 as [|c s1 IH]; intros [|d s2]; simpl.
  - by intros _ _ [= ->].
  - by intros _ [Hd _] [= <- _].
  - by intros [Hc _] _ [= -> _].
  - intros [_ H1] [_ H2] [= -> Heq].
    destruct (IH _ H1 H2 Heq) as [-> ->]. done.
Qed.

Lemma index_delimits (i j : nat) t1 t2 :
  fmt_d (Z.of_nat i) +:+ String "]" t1 = fmt_d (Z.of_nat j) +:+ String "]" t2 →
  i = j ∧ t1 = t2.
Proof.
  intros Heq.
  apply bracket_delimits in Heq as [Hd ->]; auto using fmt_d_bracket_free.
  apply fmt_d_inj in Hd. split; [lia|done].
Qed.

End decimal_strings.

(** ** The accumulator loops compute the rendered violations *)

Section refinement.

Lemma tracks_empty `{Countable K} : tracks (∅ : gmap K bool) [].
Proof.
  intros k. unfold index_bool. rewrite lookup_empty.
  symmetry. apply bool_decide_eq_false_2, not_elem_of_nil.
Qed.

Lemma tracks_insert `{Countable K} (m : gmap K bool) seen k :
  tracks m seen → tracks (<[k := true]> m) (k :: seen).
Proof.
  intros Hm k'. unfold index_bool.
  destruct (decide (k = k')) as [->|Hne].
  - rewrite lookup_insert_eq. symmetry.
    apply bool_decide_eq_true_2. by left.
  - rewrite lookup_insert_ne by done. fold (index_bool m k'). rewrite Hm.
    apply bool_decide_ext. rewrite elem_of_cons.
    split; [by right|by intros [->|?]].
Qed.

Lemma append_when {A B} (f : A → B) (b : bool) (x : A) (l : list B) :
  (if b then append l (f x) else l) = l ++ (f <$> when b x).
Proof. destruct b; simpl; [done|by rewrite app_nil_r]. Qed.

Lemma append_when_decide {A B} (f : A → B) (P : Prop) `{Decision P}
    (x : A) (l : list B) :
  (if decide P then append l (f x) else l) = l ++ (f <$> when (bool_decide P) x).
Proof.
  destruct (decide P);
    [rewrite bool_decide_eq_true_2 by done|rewrite bool_decide_eq_false_2 by done];
    simpl; [done|by rewrite app_nil_r].
Qed.

Lemma validateTargets_render i j targets errors :
  validateTargets i j targets errors
  = errors ++ (render <$> targetViolations i j targets).
Proof.
  revert j errors. induction targets as [|t rest IH]; intros j errors; simpl.
  - by rewrite app_nil_r.
  - rewrite IH, (append_when_decide render _ (MissingRefID i j)).
    by rewrite fmap_app, app_assoc.
Qed.

Lemma validatePanel_render i panel panelIDs seen errors :
  tracks panelIDs seen →
  validatePanel i panel panelIDs errors
  = (<[Panel_ID panel := true]> panelIDs,
     errors ++ (render <$> panelViolations seen i panel)).
Proof.
  intros Hseen. unfold validatePanel, panelViolations. f_equal.
  rewrite validateTargets_render, Hseen.
  rewrite (append_when render _ (DuplicatePanelID i (Panel_ID panel))).
  rewrite (append_when_decide render _ (MissingPanelType i)).
  rewrite (append_when render _ (InvalidGridPos i)).
  rewrite (append_when render _ (MissingTargets i)).
  rewrite !fmap_app, !app_assoc. done.
Qed.

Lemma validatePanels_render i panels panelIDs seen errors :
  tracks panelIDs seen →
  validatePanels i panels panelIDs errors
  = errors ++ (render <$> panelsViolations seen i panels).
Proof.
  revert i panelIDs seen errors.
  induction panels as [|p rest IH]; intros i panelIDs seen errors Hseen;
    cbn [validatePanels panelsViolations fmap list_fmap].
  - by rewrite app_nil_r.
  - rewrite (validatePanel_render _ _ _ seen) by done.
    rewrite (IH _ _ (Panel_ID p :: seen)) by by apply tracks_insert.
    by rewrite fmap_app, app_assoc.
Qed.

Lemma validateVariable_render i variable varNames seen errors :
  tracks varNames seen →
  validateVariable i variable varNames errors
  = (<[TemplateVariable_Name variable := true]> varNames,
     errors ++ (render <$> varViolations seen i variable)).
Proof.
  intros Hseen. unfold validateVariable, varViolations. f_equal.
  rewrite Hseen.
  rewrite (append_when_decide render _ (MissingVarName i)).
  rewrite (append_when render _
             (DuplicateVarName i (TemplateVariable_Name variable))).
  rewrite (append_when_decide render _ (MissingVarType i)).
  rewrite !fmap_app, !app_assoc. done.
Qed.

Lemma validateVariables_render i variables varNames seen errors :
  tracks varNames seen →
  validateVariables i variables varNames errors
  = errors ++ (render <$> varsViolations seen i variables).
Proof.
  revert i varNames seen errors.
  induction variables as [|v rest IH]; intros i varNames seen errors Hseen;
    cbn [validateVariables varsViolations fmap list_fmap].
  - by rewrite app_nil_r.
  - rewrite (validateVariable_render _ _ _ seen) by done.
    rewrite (IH _ _ (TemplateVariable_Name v :: seen)) by by apply tracks_insert.
    by rewrite fmap_app, app_assoc.
Qed.

Lemma validationErrors_render dashboard :
  validationErrors dashboard = render <$> violations dashboard.
Proof.
  unfold validationErrors, violations, headViolations.
  rewrite (validateVariables_render _ _ _ []) by apply tracks_empty.
  rewrite (validatePanels_render _ _ _ []) by apply tracks_empty.
  rewrite (append_when_decide render _ MissingTitle).
  rewrite (append_when_decide render _ MissingSchemaVersion).
  rewrite (append_when_decide render _ EmptyPanels).
  rewrite !fmap_app, !app_assoc. done.
Qed.

End refinement.

(** ** Reading a violation back from its rendering *)

Section render_facts.

(** Strips the literal prefix shared by the two paths of [H], then splits
    at the closing bracket of the index. *)
Ltac split_path H :=
  cbn in H; simplify_eq;
  repeat match goal with
  | E : fmt_d (Z.of_nat _) +:+ _ = fmt_d (Z.of_nat _) +:+ _ |- _ =>
      apply index_delimits in E as [? E]; cbn in E; simplify_eq
  end.

Ltac render_cases v :=
  destruct v;
    (split; [intros H; try (by split_path H)
            |intros H; try by destruct_and?; destruct_or?; simplify_eq]).

Lemma render_field_title v : Field (render v) = "title" ↔ v = MissingTitle.
Proof. render_cases v. Qed.

Lemma render_field_gridPos v i :
  Field (render v) = "panels[" +:+ fmt_d (Z.of_nat i) +:+ "].gridPos"
  ↔ v = InvalidGridPos i.
Proof. render_cases v. Qed.

Lemma render_field_targets v i :
  Field (render v) = "panels[" +:+ fmt_d (Z.of_nat i) +:+ "].targets"
  ↔ v = MissingTargets i.
Proof. render_cases v. Qed.

Lemma render_field_varName v i :
  Field (render v) = "templating.list[" +:+ fmt_d (Z.of_nat i) +:+ "].name"
  ↔ aboutVarName i v.
Proof.
  destruct v; (split; [intros H; try (by split_path H)|try done]).
  all: by intros ->.
Qed.

Lemma render_message_duplicateID v id :
  Message (render v) = "duplicate panel ID: " +:+ fmt_d id
  ↔ duplicateOf id v.
Proof.
  destruct v; (split; [intros H; try (by cbn in H; simplify_eq)|try done]).
  by intros ->.
Qed.

Lemma render_field_panelType v i :
  Field (render v) = "panels[" +:+ fmt_d (Z.of_nat i) +:+ "].type"
  ↔ v = MissingPanelType i.
Proof. render_cases v. Qed.

Lemma render_field_refId v i j :
  Field (render v) = "panels[" +:+ fmt_d (Z.of_nat i) +:+ "].targets["
                     +:+ fmt_d (Z.of_nat j) +:+ "].refId"
  ↔ v = MissingRefID i j.
Proof. render_cases v. Qed.

Lemma render_field_varType v i :
  Field (render v) = "templating.list[" +:+ fmt_d (Z.of_nat i) +:+ "].type"
  ↔ v = MissingVarType i.
Proof. render_cases v. Qed.

Lemma render_field_panelID v i :
  Field (render v) = "panels[" +:+ fmt_d (Z.of_nat i) +:+ "].id"
  ↔ aboutPanelID i v.
Proof.
  destruct v; (split; [intros H; try (by split_path H)|try done]).
  by intros ->.
Qed.

Lemma render_field_dashboardLevel v :
  Field (render v) ∈ ["title"; "schemaVersion"; "panels"] ↔ dashboardLevel v.
Proof.
  rewrite !elem_of_cons, elem_of_nil.
  destruct v; simpl; (split; [intros H|intros H; try done; auto]);
    try done; destruct_or?; try done; by split_path H.
Qed.

Lemma render_inj : Inj (=) (=) render.
Proof.
  intros v w Heq. assert (Field (render v) = Field (render w)) as HF by by rewrite Heq.
  assert (Message (render v) = Message (render w)) as HM by by rewrite Heq.
  clear Heq.
  destruct v, w; try (by split_path HF); try (by cbn in HM; simplify_eq).
  all: by split_path HF; cbn in HM; simplify_eq.
Qed.

End render_facts.

(** ** Filtering the violation lists *)

Section filtering.

Context {A : Type} (P : A → Prop) `{!∀ x, Decision (P x)}.

Lemma filter_fmap {B} (f : B → A) (l : list B) :
  filter P (f <$> l) = f <$> filter (P ∘ f) l.
Proof.
  induction l as [|x l IH]; [done|]. cbn [fmap list_fmap].
  rewrite !filter_cons, IH. simpl. by destruct (decide (P (f x))).
Qed.

Lemma filter_none (l : list A) : Forall (λ x, ¬ P x) l → filter P l = [].
Proof.
  induction 1 as [|x l Hx _ IH]; [done|]. by rewrite filter_cons_False.
Qed.

Lemma filter_when_True (b : bool) x : P x → filter P (when b x) = when b x.
Proof. intros. destruct b; simpl; [|done]. by rewrite filter_cons_True. Qed.

Lemma filter_when_False (b : bool) x : ¬ P x → filter P (when b x) = [].
Proof. intros. destruct b; simpl; [|done]. by rewrite filter_cons_False. Qed.

End filtering.

Section indices.

Lemma Forall_when {A} (Q : A → Prop) (b : bool) x : Q x → Forall Q (when b x).
Proof. destruct b; simpl; auto. Qed.

Lemma targetViolations_index i j targets :
  Forall (λ v, ∃ j', v = MissingRefID i j') (targetViolations i j targets).
Proof.
  revert j. induction targets as [|t rest IH]; intros j; simpl; [done|].
  apply Forall_app. split; [apply Forall_when; eauto|apply IH].
Qed.

Lemma panelViolations_index seen i panel :
  Forall (λ v, panelIndex v = Some i ∧ varIndex v = None)
         (panelViolations seen i panel).
Proof.
  unfold panelViolations. repeat (apply Forall_app; split);
    try (by apply Forall_when).
  eapply Forall_impl; [apply targetViolations_index|].
  by intros v [j' ->].
Qed.

Lemma panelsViolations_index seen i panels :
  Forall (λ v, (∃ k, panelIndex v = Some k ∧ (i ≤ k)%nat) ∧ varIndex v = None)
         (panelsViolations seen i panels).
Proof.
  revert seen i. induction panels as [|p rest IH]; intros seen i; simpl; [done|].
  apply Forall_app. split.
  - eapply Forall_impl; [apply panelViolations_index|].
    intros v [? ?]; eauto.
  - eapply Forall_impl; [apply IH|].
    intros v [(k & ? & ?) ?]. split; [|done]. exists k. split; [done|lia].
Qed.

Lemma varViolations_index seen i variable :
  Forall (λ v, varIndex v = Some i ∧ panelIndex v = None)
         (varViolations seen i variable).
Proof.
  unfold varViolations. repeat (apply Forall_app; split); by apply Forall_when.
Qed.

Lemma varsViolations_index seen i variables :
  Forall (λ v, (∃ k, varIndex v = Some k ∧ (i ≤ k)%nat) ∧ panelIndex v = None)
         (varsViolations seen i variables).
Proof.
  revert seen i. induction variables as [|x rest IH]; intros seen i; simpl; [done|].
  apply Forall_app. split.
  - eapply Forall_impl; [apply varViolations_index|].
    intros v [? ?]; eauto.
  - eapply Forall_impl; [apply IH|].
    intros v [(k & ? & ?) ?]. split; [|done]. exists k. split; [done|lia].
Qed.

Lemma headViolations_index dashboard :
  Forall (λ v, panelIndex v = None ∧ varIndex v = None) (headViolations dashboard).
Proof.
  unfold headViolations. repeat (apply Forall_app; split); by apply Forall_when.
Qed.

End indices.

Section filter_by_index.

Context (P : Violation → Prop) `{!∀ v, Decision (P v)}.

(** A property of violations about panel [i + n] selects, among the
    violations of a list of panels numbered from [i], only violations of
    its [n]-th panel. *)
Lemma filter_panelsViolations seen i panels n panel :
  (∀ v, P v → panelIndex v = Some (i + n)%nat) →
  panels !! n = Some panel →
  ∃ seen', filter P (panelsViolations seen i panels)
           = filter P (panelViolations seen' (i + n) panel).
Proof.
  revert seen i n. induction panels as [|p rest IH]; intros seen i n HP Hn; [done|].
  cbn [panelsViolations]. rewrite filter_app. destruct n as [|n]; simplify_eq/=.
  - exists seen. rewrite Nat.add_0_r in *.
    rewrite (filter_none P (panelsViolations _ _ _)), app_nil_r; [done|].
    eapply Forall_impl; [apply panelsViolations_index|].
    intros v [(k & Hk & ?) _] Hv. apply HP in Hv. simplify_eq. lia.
  - rewrite (filter_none P (panelViolations _ _ _)).
    2:{ eapply Forall_impl; [apply panelViolations_index|].
        intros v [Hk _] Hv. apply HP in Hv. simplify_eq. lia. }
    replace (i + S n)%nat with (S i + n)%nat in * by lia.
    by apply IH.
Qed.

(** The same for template variables, keeping track of the names met
    before the selected variable. *)
Lemma filter_varsViolations seen i variables n variable :
  (∀ v, P v → varIndex v = Some (i + n)%nat) →
  variables !! n = Some variable →
  filter P (varsViolations seen i variables)
  = filter P (varViolations
                (reverse (TemplateVariable_Name <$> take n variables) ++ seen)
                (i + n) variable).
Proof.
  revert seen i n. induction variables as [|x rest IH]; intros seen i n HP Hn; [done|].
  cbn [varsViolations]. rewrite filter_app. destruct n as [|n]; simplify_eq/=.
  - rewrite Nat.add_0_r in *.
    rewrite (filter_none P (varsViolations _ _ _)), app_nil_r; [done|].
    eapply Forall_impl; [apply varsViolations_index|].
    intros v [(k & Hk & ?) _] Hv. apply HP in Hv. simplify_eq. lia.
  - rewrite (filter_none P (varViolations _ _ _)).
    2:{ eapply Forall_impl; [apply varViolations_index|].
        intros v [Hk _] Hv. apply HP in Hv. simplify_eq. lia. }
    replace (i + S n)%nat with (S i + n)%nat in * by lia.
    rewrite (IH _ _ _ HP Hn). rewrite reverse_cons, <-app_assoc. done.
Qed.

Lemma filter_violations_panel dashboard n panel :
  (∀ v, P v → panelIndex v = Some n) →
  Dashboard_Panels dashboard !! n = Some panel →
  ∃ seen, filter P (violations dashboard) = filter P (panelViolations seen n panel).
Proof.
  intros HP Hn. unfold violations. rewrite !filter_app.
  destruct (filter_panelsViolations [] 0 _ n panel HP Hn) as [seen ->].
  exists seen. rewrite (filter_none P (headViolations _)).
  2:{ eapply Forall_impl; [apply headViolations_index|].
      intros v [? _] Hv. apply HP in Hv. congruence. }
  rewrite (filter_none P (varsViolations _ _ _)).
  2:{ eapply Forall_impl; [apply varsViolations_index|].
      intros v [_ ?] Hv. apply HP in Hv. congruence. }
  by rewrite app_nil_r.
Qed.

Lemma filter_violations_var dashboard n variable :
  (∀ v, P v → varIndex v = Some n) →
  Templating_List (Dashboard_Templating dashboard) !! n = Some variable →
  filter P (violations dashboard)
  = filter P (varViolations
      (reverse (TemplateVariable_Name
                  <$> take n (Templating_List (Dashboard_Templating dashboard))))
      n variable).
Proof.
  intros HP Hn. unfold violations. rewrite !filter_app.
  rewrite (filter_varsViolations [] 0 _ n variable HP Hn), app_nil_r.
  rewrite (filter_none P (headViolations _)).
  2:{ eapply Forall_impl; [apply headViolations_index|].
      intros v [_ ?] Hv. apply HP in Hv. congruence. }
  rewrite (filter_none P (panelsViolations _ _ _)).
  2:{ eapply Forall_impl; [apply panelsViolations_index|].
      intros v [_ ?] Hv. apply HP in Hv. congruence. }
  done.
Qed.

End filter_by_index.

(** * Verified properties *)

(** ** Grid size *)

(** C7. For the panel at index [i], the error slice holds exactly one entry
    with the field path [panels[i].gridPos] when the panel's grid width or
    height is not positive (one combined entry, never one per axis), and no
    such entry when both are strictly positive. *)
Theorem grid_size_error_once (dashboard : Dashboard) (i : nat) (panel : Panel) :
  Dashboard_Panels dashboard !! i = Some panel →
  filter (λ e, Field e = "panels[" +:+ fmt_d (Z.of_nat i) +:+ "].gridPos")
         (validationErrors dashboard)
  = if decide (GridPos_W (Panel_GridPos panel) ≤ 0
               ∨ GridPos_H (Panel_GridPos panel) ≤ 0)
    then [ {| Field := "panels[" +:+ fmt_d (Z.of_nat i) +:+ "].gridPos";
              Message := "panel width and height must be positive" |} ]
    else [].
Proof.
  intros Hi. rewrite validationErrors_render, filter_fmap.
  rewrite (list_filter_iff _ (λ v, v = InvalidGridPos i))
    by (intros v; apply render_field_gridPos).
  destruct (filter_violations_panel (λ v, v = InvalidGridPos i) dashboard i panel)
    as [seen ->]; [by intros v ->|done|].
  unfold panelViolations. rewrite !filter_app.
  rewrite !(filter_when_False _ _ (DuplicatePanelID _ _)) by done.
  rewrite !(filter_when_False _ _ (MissingPanelType _)) by done.
  rewrite !(filter_when_False _ _ (MissingTargets _)) by done.
  rewrite (filter_when_True _ _ (InvalidGridPos _)) by done.
  rewrite (filter_none _ (targetViolations _ _ _)).
  2:{ eapply Forall_impl; [apply targetViolations_index|]. by intros v [j ->]. }
  unfold badGrid. simpl. rewrite app_nil_r.
  case_decide as Hbad.
  - assert (bool_decide (GridPos_W (Panel_GridPos panel) ≤ 0)
            || bool_decide (GridPos_H (Panel_GridPos panel) ≤ 0) = true) as ->; [|done].
    apply orb_true_iff. rewrite !bool_decide_eq_true. done.
  - assert (bool_decide (GridPos_W (Panel_GridPos panel) ≤ 0)
            || bool_decide (GridPos_H (Panel_GridPos panel) ≤ 0) = false) as ->; [|done].
    apply orb_false_iff. rewrite !bool_decide_eq_false. split; intros ?; apply Hbad; auto.
Qed.

Lemma grid_size_error_once_witness :
  filter (λ e, Field e = "panels[0].gridPos") (validationErrors gridDashboard)
  = [ {| Field := "panels[0].gridPos";
         Message := "panel width and height must be positive" |} ]
  ∧ filter (λ e, Field e = "panels[1].gridPos") (validationErrors gridDashboard) = [].
Proof.
  split.
  - exact (grid_size_error_once gridDashboard 0 _ eq_refl).
  - exact (grid_size_error_once gridDashboard 1 _ eq_refl).
Defined.

(** ** Query panels *)

Lemma isQueryPanel_member panelType :
  isQueryPanel panelType = bool_decide (panelType ∈ queryPanelTypes).
Proof.
  revert panelType. change (tracks queryPanels queryPanelTypes).
  unfold queryPanels, queryPanelTypes.
  repeat apply tracks_insert. apply tracks_empty.
Qed.

(** C3. A panel owes a target exactly when its type is, byte for byte, one of
    the nine query panel types: for the panel at index [i] the error slice
    holds one entry with the field path [panels[i].targets] when the type is
    in the set and the target list is empty, and none otherwise.  The
    witness instantiates this at the types [timeseries], [Table] and
    [text], each with an empty target list. *)
Theorem query_panel_targets_required (dashboard : Dashboard) (i : nat) (panel : Panel) :
  Dashboard_Panels dashboard !! i = Some panel →
  filter (λ e, Field e = "panels[" +:+ fmt_d (Z.of_nat i) +:+ "].targets")
         (validationErrors dashboard)
  = if decide (Panel_Type panel ∈ queryPanelTypes ∧ Panel_Targets panel = [])
    then [ {| Field := "panels[" +:+ fmt_d (Z.of_nat i) +:+ "].targets";
              Message := "query panels must have at least one target" |} ]
    else [].
Proof.
  intros Hi. rewrite validationErrors_render, filter_fmap.
  rewrite (list_filter_iff _ (λ v, v = MissingTargets i))
    by (intros v; apply render_field_targets).
  destruct (filter_violations_panel (λ v, v = MissingTargets i) dashboard i panel)
    as [seen ->]; [by intros v ->|done|].
  unfold panelViolations. rewrite !filter_app.
  rewrite !(filter_when_False _ _ (DuplicatePanelID _ _)) by done.
  rewrite !(filter_when_False _ _ (MissingPanelType _)) by done.
  rewrite !(filter_when_False _ _ (InvalidGridPos _)) by done.
  rewrite (filter_when_True _ _ (MissingTargets _)) by done.
  rewrite (filter_none _ (targetViolations _ _ _)).
  2:{ eapply Forall_impl; [apply targetViolations_index|]. by intros v [j ->]. }
  simpl. rewrite app_nil_r, isQueryPanel_member.
  case_decide as Hq.
  - destruct Hq as [Hq ->]. by rewrite bool_decide_eq_true_2.
  - destruct (decide (Panel_Type panel ∈ queryPanelTypes)) as [Hin|Hin].
    + rewrite (bool_decide_eq_false_2 (length _ = 0%nat)), andb_false_r; [done|].
      intros Hlen. apply Hq. split; [done|]. by apply nil_length_inv.
    + by rewrite (bool_decide_eq_false_2 _ Hin).
Qed.

Lemma query_panel_targets_required_witness :
  filter (λ e, Field e = "panels[0].targets") (validationErrors targetsDashboard)
  = [ {| Field := "panels[0].targets";
         Message := "query panels must have at least one target" |} ]
  ∧ filter (λ e, Field e = "panels[1].targets") (validationErrors targetsDashboard) = []
  ∧ filter (λ e, Field e = "panels[2].targets") (validationErrors targetsDashboard) = [].
Proof.
  split; [|split].
  - exact (query_panel_targets_required targetsDashboard 0 _ eq_refl).
  - exact (query_panel_targets_required targetsDashboard 1 _ eq_refl).
  - exact (query_panel_targets_required targetsDashboard 2 _ eq_refl).
Defined.

(** ** Title *)

(** C4. When the title is empty, the error slice holds exactly one entry for
    the field [title], whatever the rest of the dashboard looks like. *)
Theorem missing_title_once (dashboard : Dashboard) :
  Dashboard_Title dashboard = "" →
  filter (λ e, Field e = "title") (validationErrors dashboard)
  = [ {| Field := "title"; Message := "title is required" |} ].
Proof.
  intros Htitle. rewrite validationErrors_render, filter_fmap.
  rewrite (list_filter_iff _ (λ v, v = MissingTitle))
    by (intros v; apply render_field_title).
  unfold violations, headViolations. rewrite !filter_app.
  rewrite (filter_when_True _ _ MissingTitle) by done.
  rewrite (filter_when_False _ _ MissingSchemaVersion) by done.
  rewrite (filter_when_False _ _ EmptyPanels) by done.
  rewrite (filter_none _ (panelsViolations _ _ _)).
  2:{ eapply Forall_impl; [apply panelsViolations_index|].
      by intros v [(k & ? & _) _] ->. }
  rewrite (filter_none _ (varsViolations _ _ _)).
  2:{ eapply Forall_impl; [apply varsViolations_index|].
      by intros v [(k & ? & _) _] ->. }
  by rewrite bool_decide_eq_true_2.
Qed.

Lemma missing_title_once_witness :
  Dashboard_Title untitledDashboard = ""
  ∧ filter (λ e, Field e = "title") (validationErrors untitledDashboard)
    = [ {| Field := "title"; Message := "title is required" |} ].
Proof. split; [reflexivity|]. exact (missing_title_once untitledDashboard eq_refl). Defined.

(** ** Template variables with an empty name *)

(** C10. The empty name takes part in duplicate tracking.  When the variable
    at index [i] has the empty name and an earlier variable (index [j < i])
    has it too, the entries with the path [templating.list[i].name] are, in
    this order, the missing-name error and the duplicate-name error. *)
Theorem empty_name_missing_and_duplicate (dashboard : Dashboard)
    (i j : nat) (variable earlier : TemplateVariable) :
  Templating_List (Dashboard_Templating dashboard) !! i = Some variable →
  Templating_List (Dashboard_Templating dashboard) !! j = Some earlier →
  (j < i)%nat →
  TemplateVariable_Name variable = "" →
  TemplateVariable_Name earlier = "" →
  filter (λ e, Field e = "templating.list[" +:+ fmt_d (Z.of_nat i) +:+ "].name")
         (validationErrors dashboard)
  = [ {| Field := "templating.list[" +:+ fmt_d (Z.of_nat i) +:+ "].name";
         Message := "variable name is required" |};
      {| Field := "templating.list[" +:+ fmt_d (Z.of_nat i) +:+ "].name";
         Message := "duplicate variable name: " |} ].
Proof.
  intros Hi Hj Hlt Hname Hearlier.
  rewrite validationErrors_render, filter_fmap.
  rewrite (list_filter_iff _ (aboutVarName i))
    by (intros v; apply render_field_varName).
  rewrite (filter_violations_var (aboutVarName i) dashboard i variable); [| |done].
  2:{ intros v Hv. destruct v; simpl in *; by simplify_eq. }
  unfold varViolations. rewrite !filter_app.
  rewrite (filter_when_True _ _ (MissingVarName _)) by done.
  rewrite (filter_when_True _ _ (DuplicateVarName _ _)) by done.
  rewrite (filter_when_False _ _ (MissingVarType _)) by (by intros ?).
  rewrite Hname, !bool_decide_eq_true_2; [done| |done].
  apply elem_of_reverse, list_elem_of_fmap. exists earlier. split; [done|].
  apply list_elem_of_lookup. exists j. by rewrite lookup_take_lt.
Qed.

Lemma empty_name_missing_and_duplicate_witness :
  filter (λ e, Field e = "templating.list[2].name") (validationErrors namelessDashboard)
  = [ {| Field := "templating.list[2].name";
         Message := "variable name is required" |};
      {| Field := "templating.list[2].name";
         Message := "duplicate variable name: " |} ].
Proof.
  refine (empty_name_missing_and_duplicate namelessDashboard 2 0 _ _
            eq_refl eq_refl _ eq_refl eq_refl).
  lia.
Defined.

(** ** Duplicate panel ids *)

Section duplicates.

Lemma occurrences_from_shift i id panels :
  occurrences_from i id panels
  = (λ n, i + n)%nat <$> occurrences id panels.
Proof.
  unfold occurrences. revert i.
  induction panels as [|p rest IH]; intros i; [done|].
  cbn [occurrences_from length seq]. rewrite filter_cons, <-fmap_S_seq, filter_fmap.
  rewrite IH.
  rewrite (list_filter_iff (_ ∘ S) (λ n, Panel_ID <$> rest !! n = Some id))
    by done.
  destruct (decide (Panel_ID p = id)) as [Heq|Hne].
  - rewrite decide_True by (by simpl; f_equal).
    cbn [app fmap list_fmap]. rewrite <-list_fmap_compose.
    f_equal; [lia|]. apply list_fmap_ext. intros _ n _. simpl. lia.
  - rewrite decide_False by (simpl; congruence).
    cbn [app]. rewrite <-list_fmap_compose.
    apply list_fmap_ext. intros _ n _. simpl. lia.
Qed.

Lemma filter_duplicateOf_targets id i j targets :
  filter (duplicateOf id) (targetViolations i j targets) = [].
Proof.
  apply (filter_none (duplicateOf id)).
  eapply Forall_impl; [apply targetViolations_index|].
  by intros v [j' ->] ?.
Qed.

Lemma filter_duplicateOf_panel id seen i panel :
  filter (duplicateOf id) (panelViolations seen i panel)
  = when (bool_decide (Panel_ID panel = id ∧ id ∈ seen)) (DuplicatePanelID i id).
Proof.
  unfold panelViolations. rewrite !filter_app, filter_duplicateOf_targets.
  rewrite !(filter_when_False _ _ (MissingPanelType _)) by (by intros ?).
  rewrite !(filter_when_False _ _ (InvalidGridPos _)) by (by intros ?).
  rewrite !(filter_when_False _ _ (MissingTargets _)) by (by intros ?).
  rewrite !app_nil_r.
  destruct (decide (Panel_ID panel = id)) as [->|Hne].
  - rewrite filter_when_True by done. f_equal. apply bool_decide_ext. tauto.
  - rewrite filter_when_False by done.
    rewrite bool_decide_eq_false_2; [done|tauto].
Qed.

Lemma filter_duplicateOf_panels id seen i panels :
  filter (duplicateOf id) (panelsViolations seen i panels)
  = (λ n, DuplicatePanelID n id)
    <$> (if decide (id ∈ seen) then occurrences_from i id panels
         else tail (occurrences_from i id panels)).
Proof.
  revert seen i. induction panels as [|p rest IH]; intros seen i.
  { by case_decide. }
  cbn [panelsViolations occurrences_from].
  rewrite filter_app, filter_duplicateOf_panel, IH.
  destruct (decide (Panel_ID p = id)) as [->|Hne].
  - rewrite (decide_True (P := id ∈ id :: seen)) by by left.
    destruct (decide (id ∈ seen)) as [Hin|Hin].
    + by rewrite bool_decide_eq_true_2.
    + rewrite bool_decide_eq_false_2 by tauto. done.
  - rewrite bool_decide_eq_false_2 by tauto. cbn [when app].
    destruct (decide (id ∈ seen)) as [Hin|Hin].
    + rewrite decide_True; [done|by right].
    + rewrite decide_False; [done|]. rewrite elem_of_cons.
      intros [?|?]; [congruence|done].
Qed.

Lemma filter_duplicateOf_violations id dashboard :
  filter (duplicateOf id) (violations dashboard)
  = (λ n, DuplicatePanelID n id)
    <$> tail (occurrences id (Dashboard_Panels dashboard)).
Proof.
  unfold violations. rewrite !filter_app, filter_duplicateOf_panels.
  rewrite (filter_none _ (headViolations _)).
  2:{ eapply Forall_impl; [apply headViolations_index|].
      intros v [? _] Hv. by destruct v. }
  rewrite (filter_none _ (varsViolations _ _ _)).
  2:{ eapply Forall_impl; [apply varsViolations_index|].
      intros v [_ ?] Hv. by destruct v. }
  rewrite decide_False by apply not_elem_of_nil.
  rewrite occurrences_from_shift, app_nil_r. cbn [app].
  by rewrite list_fmap_id.
Qed.

End duplicates.

(** C2. Let the panels at the indices [occurrences id panels] be those that
    carry the id [id].  The duplicate-id errors for [id] are then exactly one
    per occurrence after the first, in the order of the panels, each with
    the field path [panels[i].id] of that later panel; their number is the
    number of occurrences minus one. *)
Theorem duplicate_panel_ids_reported (dashboard : Dashboard) (id : Z) :
  let later := tail (occurrences id (Dashboard_Panels dashboard)) in
  filter (λ e, Message e = "duplicate panel ID: " +:+ fmt_d id)
         (validationErrors dashboard)
  = (λ i, {| Field := "panels[" +:+ fmt_d (Z.of_nat i) +:+ "].id";
             Message := "duplicate panel ID: " +:+ fmt_d id |}) <$> later
  ∧ length (filter (λ e, Message e = "duplicate panel ID: " +:+ fmt_d id)
                   (validationErrors dashboard))
    = (length (occurrences id (Dashboard_Panels dashboard)) - 1)%nat.
Proof.
  intros later.
  assert (filter (λ e, Message e = "duplicate panel ID: " +:+ fmt_d id)
                 (validationErrors dashboard)
          = (λ i, {| Field := "panels[" +:+ fmt_d (Z.of_nat i) +:+ "].id";
                     Message := "duplicate panel ID: " +:+ fmt_d id |}) <$> later)
    as ->.
  { rewrite validationErrors_render, filter_fmap.
    rewrite (list_filter_iff _ (duplicateOf id))
      by (intros v; apply render_message_duplicateID).
    rewrite filter_duplicateOf_violations, <-list_fmap_compose. done. }
  split; [done|]. rewrite length_fmap. unfold later.
  by destruct (occurrences id (Dashboard_Panels dashboard)); simpl; [|lia].
Qed.

(** Scenario B: two panels with id 5, and the occurrences of an id read off
    a longer list. *)
Example occurrences_example :
  occurrences 5 [panel_of 5 "text" 1 1 []; panel_of 7 "text" 1 1 [];
                 panel_of 5 "text" 1 1 []; panel_of 5 "text" 1 1 []]
  = [0; 2; 3]%nat.
Proof. reflexivity. Qed.

Example scenarioB :
  validationErrors
    (dashboard_of "B" 1 [panel_of 5 "text" 1 1 []; panel_of 5 "text" 1 1 []] [])
  = [ {| Field := "panels[1].id"; Message := "duplicate panel ID: 5" |} ].
Proof. reflexivity. Qed.

(** ** The combined error *)

Section combined_error.

Lemma collectMessages_fmap errors : collectMessages errors = Error <$> errors.
Proof.
  unfold collectMessages.
  assert (∀ acc, foldl (λ messages err, append messages (Error err)) acc errors
                 = acc ++ (Error <$> errors)) as Hgen; [|apply (Hgen [])].
  induction errors as [|e errors IH]; intros acc; simpl.
  - by rewrite app_nil_r.
  - rewrite IH. unfold append. by rewrite <-app_assoc.
Qed.

Lemma ValidateDashboard_nil dashboard :
  ValidateDashboard dashboard = None ↔ validationErrors dashboard = [].
Proof.
  unfold ValidateDashboard. case_decide as Hlen.
  - split; [done|]. intros Hnil. rewrite Hnil in Hlen. simpl in Hlen. lia.
  - split; [|done]. intros _.
    destruct (validationErrors dashboard); [done|simpl in Hlen; lia].
Qed.

End combined_error.

(** C5. [ValidateDashboard] returns [nil] exactly when the collected error
    slice is empty; otherwise it returns one error whose text is
    [validation failed: ] followed by the entries, each rendered as field
    path, colon, space and message, joined by [; ]. *)
Theorem combined_error_message (dashboard : Dashboard) :
  (ValidateDashboard dashboard = None ↔ validationErrors dashboard = [])
  ∧ (validationErrors dashboard ≠ [] →
     ValidateDashboard dashboard
     = Some ("validation failed: "
             +:+ Join ((λ e, Field e +:+ ": " +:+ Message e)
                         <$> validationErrors dashboard) "; ")).
Proof.
  split; [apply ValidateDashboard_nil|].
  intros Hne. unfold ValidateDashboard.
  rewrite decide_True, collectMessages_fmap; [done|].
  destruct (validationErrors dashboard); [done|simpl; lia].
Qed.

Lemma combined_error_message_witness :
  ValidateDashboard untitledDashboard
  = Some "validation failed: title: title is required; schemaVersion: schemaVersion is required; panels[0].type: panel type is required; panels[0].gridPos: panel width and height must be positive; panels[0].targets[0].refId: target refId is required; panels[1].id: duplicate panel ID: 5; panels[1].targets: query panels must have at least one target; templating.list[0].name: variable name is required; templating.list[0].type: variable type is required".
Proof.
  refine (proj2 (combined_error_message untitledDashboard) _).
  discriminate.
Defined.

(** ** Determinism *)



(** ** Dashboards that pass validation *)

Section no_violation.

Lemma when_nil {A} (b : bool) (x : A) : when b x = [] ↔ b = false.
Proof. by destruct b. Qed.

Lemma targetViolations_nil i j targets :
  targetViolations i j targets = [] ↔ Forall targetOK targets.
Proof.
  revert j. induction targets as [|t rest IH]; intros j; simpl; [done|].
  rewrite app_nil, when_nil, bool_decide_eq_false, IH, Forall_cons. done.
Qed.

Lemma panelViolations_nil seen i panel :
  panelViolations seen i panel = [] ↔ (Panel_ID panel ∉ seen) ∧ panelOK panel.
Proof.
  unfold panelViolations, panelOK, badGrid.
  rewrite !app_nil, !when_nil, targetViolations_nil.
  rewrite orb_false_iff, andb_false_iff, !bool_decide_eq_false.
  split.
  - intros (? & ? & [? ?] & Hq & ?). split_and!; try done; try lia.
    intros Hquery Hnil. rewrite Hnil in Hq.
    destruct Hq as [Hq|Hq]; [congruence|by apply Hq].
  - intros (? & ? & ? & ? & Hq & ?). split_and!; try done; try lia.
    destruct (isQueryPanel (Panel_Type panel)); [right|by left].
    intros Hlen. apply Hq; [done|]. by apply nil_length_inv.
Qed.

Lemma panelsViolations_nil seen i panels :
  panelsViolations seen i panels = []
  ↔ Forall panelOK panels
    ∧ NoDup (Panel_ID <$> panels)
    ∧ (∀ id, id ∈ Panel_ID <$> panels → id ∉ seen).
Proof.
  revert seen i. induction panels as [|p rest IH]; intros seen i.
  { simpl. split; [|done]. intros _. split; [done|]. split; [constructor|].
    by intros id ?%elem_of_nil. }
  cbn [panelsViolations fmap list_fmap].
  rewrite app_nil, panelViolations_nil, IH, Forall_cons, NoDup_cons.
  split.
  - intros ([Hp ?] & ? & ? & Hrest). split_and!; try done.
    + intros Hin. by apply (Hrest _ Hin); left.
    + intros id [->|Hin]%elem_of_cons; [done|].
      intros Hseen. by apply (Hrest _ Hin); right.
  - intros ([? ?] & [Hp ?] & Hall). split_and!; try done.
    + apply Hall. by left.
    + intros id Hin [->|Hseen]%elem_of_cons; [done|].
      by apply (Hall id); [right|].
Qed.

Lemma varViolations_nil seen i variable :
  varViolations seen i variable = []
  ↔ (TemplateVariable_Name variable ∉ seen) ∧ variableOK variable.
Proof.
  unfold varViolations, variableOK.
  rewrite !app_nil, !when_nil, !bool_decide_eq_false. tauto.
Qed.

Lemma varsViolations_nil seen i variables :
  varsViolations seen i variables = []
  ↔ Forall variableOK variables
    ∧ NoDup (TemplateVariable_Name <$> variables)
    ∧ (∀ name, name ∈ TemplateVariable_Name <$> variables → name ∉ seen).
Proof.
  revert seen i. induction variables as [|x rest IH]; intros seen i.
  { simpl. split; [|done]. intros _. split; [done|]. split; [constructor|].
    by intros name ?%elem_of_nil. }
  cbn [varsViolations fmap list_fmap].
  rewrite app_nil, varViolations_nil, IH, Forall_cons, NoDup_cons.
  split.
  - intros ([Hx ?] & ? & ? & Hrest). split_and!; try done.
    + intros Hin. by apply (Hrest _ Hin); left.
    + intros name [->|Hin]%elem_of_cons; [done|].
      intros Hseen. by apply (Hrest _ Hin); right.
  - intros ([? ?] & [Hx ?] & Hall). split_and!; try done.
    + apply Hall. by left.
    + intros name Hin [->|Hseen]%elem_of_cons; [done|].
      by apply (Hall name); [right|].
Qed.

Lemma violations_nil dashboard :
  violations dashboard = [] ↔ wellFormed dashboard.
Proof.
  unfold violations, headViolations, wellFormed.
  rewrite !app_nil, !when_nil, !bool_decide_eq_false.
  rewrite panelsViolations_nil, varsViolations_nil.
  split.
  - intros ((? & ? & Hlen) & (? & ? & _) & (? & ? & _)). split_and!; try done.
    intros Hnil. apply Hlen. by rewrite Hnil.
  - intros (? & ? & Hne & ? & ? & ? & ?). split_and!; try done.
    + intros Hlen. by apply Hne, nil_length_inv.
    + by intros id _ ?%elem_of_nil.
    + by intros name _ ?%elem_of_nil.
Qed.

(** Validation succeeds on the well-formed dashboards and on no other. *)
Lemma ValidateDashboard_nil_iff dashboard :
  ValidateDashboard dashboard = None ↔ wellFormed dashboard.
Proof.
  rewrite ValidateDashboard_nil, validationErrors_render, <-violations_nil.
  split; [apply fmap_nil_inv|by intros ->].
Qed.

End no_violation.

(** C1, as amended.  A dashboard with a non-empty title, a non-zero schema
    version, at least one panel, every panel with positive grid width and
    height, a non-empty type, at least one target if its type is a query
    type and a non-empty refId on every target it has, every template
    variable with a non-empty name and a non-empty type, and no duplicate
    panel ids or variable names, passes validation. *)
Theorem well_formed_dashboard_passes (dashboard : Dashboard) :
  wellFormed dashboard → ValidateDashboard dashboard = None.
Proof. apply ValidateDashboard_nil_iff. Qed.

Lemma scenarioA_wellFormed : wellFormed scenarioA.
Proof.
  unfold wellFormed, scenarioA. simpl. split_and!; try done.
  - constructor; [|constructor]. unfold panelOK. simpl. split_and!; try done.
    constructor; [done|constructor].
  - apply NoDup_singleton.
  - constructor.
Defined.

Lemma well_formed_dashboard_passes_witness :
  wellFormed scenarioA ∧ ValidateDashboard scenarioA = None.
Proof.
  split; [exact scenarioA_wellFormed|].
  exact (well_formed_dashboard_passes scenarioA scenarioA_wellFormed).
Defined.

(** C1 as worded fails: both dashboards meet every condition it lists, and
    both are rejected. *)
Lemma claimed_conditions_do_not_suffice :
  (wellFormed_as_claimed untypedVariableDashboard
   ∧ ValidateDashboard untypedVariableDashboard
     = Some "validation failed: templating.list[0].type: variable type is required")
  ∧ (wellFormed_as_claimed textTargetDashboard
     ∧ ValidateDashboard textTargetDashboard
       = Some "validation failed: panels[0].targets[0].refId: target refId is required").
Proof.
  split; (split; [|reflexivity]).
  - unfold wellFormed_as_claimed. simpl. split_and!; try done.
    + constructor; [|constructor]. unfold panelOK_as_claimed. simpl.
      split_and!; try done. intros _. split; [done|]. constructor; [done|constructor].
    + apply NoDup_singleton.
    + apply NoDup_singleton.
  - unfold wellFormed_as_claimed. simpl. split_and!; try done.
    + constructor; [|constructor]. unfold panelOK_as_claimed. simpl.
      split_and!; done.
    + apply NoDup_singleton.
    + constructor.
Qed.

(** ** Metadata *)

(** C8, as amended.  The metadata map has exactly the seven keys [title],
    [description], [uid], [tags], [panels_count], [schema_version] and
    [has_templating], bound to the dashboard's title, description, uid
    string, tag list, number of panels, schema version and whether any
    template variable exists; two dashboards that agree on these facts have
    the same metadata, whether or not they pass validation. *)
Theorem metadata_projection (dashboard : Dashboard) :
  let metadata := GetDashboardMetadata dashboard in
  dom metadata = metadataKeys
  ∧ metadata !! "title" = Some (MetaString (Dashboard_Title dashboard))
  ∧ metadata !! "description" = Some (MetaString (Dashboard_Description dashboard))
  ∧ metadata !! "uid" = Some (MetaString (Dashboard_UID dashboard))
  ∧ metadata !! "tags" = Some (MetaStrings (Dashboard_Tags dashboard))
  ∧ metadata !! "panels_count"
    = Some (MetaInt (Z.of_nat (length (Dashboard_Panels dashboard))))
  ∧ metadata !! "schema_version" = Some (MetaInt (Dashboard_SchemaVersion dashboard))
  ∧ metadata !! "has_templating"
    = Some (MetaBool (bool_decide
                        (Templating_List (Dashboard_Templating dashboard) ≠ [])))
  ∧ ∀ other, projectedFacts other = projectedFacts dashboard →
             GetDashboardMetadata other = metadata.
Proof.
  assert (bool_decide (0 < length (Templating_List (Dashboard_Templating dashboard)))%nat
          = bool_decide (Templating_List (Dashboard_Templating dashboard) ≠ [])) as Hb.
  { apply bool_decide_ext.
    destruct (Templating_List (Dashboard_Templating dashboard)); simpl; [|split; [done|lia]].
    split; [lia|done]. }
  intros metadata. unfold metadata, GetDashboardMetadata. split_and!.
  - rewrite !dom_insert_L, dom_empty_L. unfold metadataKeys. set_solver.
  - by simplify_map_eq.
  - by simplify_map_eq.
  - by simplify_map_eq.
  - by simplify_map_eq.
  - by simplify_map_eq.
  - by simplify_map_eq.
  - rewrite <-Hb. by simplify_map_eq.
  - intros other Hfacts. unfold projectedFacts in Hfacts. simplify_eq.
    rewrite Hb.
    assert (bool_decide (0 < length (Templating_List (Dashboard_Templating other)))%nat
            = bool_decide (Templating_List (Dashboard_Templating other) ≠ [])) as ->.
    { apply bool_decide_ext.
      destruct (Templating_List (Dashboard_Templating other)); simpl; [|split; [done|lia]].
      split; [lia|done]. }
    congruence.
Qed.

Lemma metadata_projection_witness :
  ValidateDashboard passingDashboard = None
  ∧ ValidateDashboard failingDashboard ≠ None
  ∧ GetDashboardMetadata failingDashboard = GetDashboardMetadata passingDashboard.
Proof.
  split; [reflexivity|]. split; [discriminate|].
  refine (proj2 (proj2 (proj2 (proj2 (proj2 (proj2 (proj2 (proj2
            (metadata_projection passingDashboard)))))))) failingDashboard _).
  reflexivity.
Defined.

(** C8 as worded fails: the metadata carries no [id]; it neither changes
    with the dashboard's id nor is it determined by the listed facts. *)
Lemma metadata_has_no_id :
  GetDashboardMetadata passingDashboard !! "id" = None
  ∧ (Dashboard_ID passingDashboard ≠ Dashboard_ID renumberedDashboard
     ∧ GetDashboardMetadata passingDashboard = GetDashboardMetadata renumberedDashboard)
  ∧ (claimedFacts passingDashboard = claimedFacts renamedDashboard
     ∧ GetDashboardMetadata passingDashboard ≠ GetDashboardMetadata renamedDashboard).
Proof.
  split_and!; done.
Qed.

(** ** Template variable substitution *)

Section replace_all.

Lemma append_cons c (s t : string) : String c s +:+ t = String c (s +:+ t).
Proof. done. Qed.


Lemma append_assoc (s t u : string) : (s +:+ t) +:+ u = s +:+ (t +:+ u).
Proof.
  induction s as [|c s IH]; [done|]. rewrite !append_cons. by f_equal.
Qed.

Lemma append_nil_r (s : string) : s +:+ "" = s.
Proof. induction s as [|c s IH]; [done|]. rewrite append_cons. by f_equal. Qed.


Lemma HasPrefix_app prefix s : HasPrefix (prefix +:+ s) prefix = true.
Proof.
  induction prefix as [|c prefix IH]; [by destruct s|].
  rewrite append_cons. cbn [HasPrefix]. by rewrite bool_decide_eq_true_2, IH.
Qed.

(** The bytes of an occurrence that are still to be skipped are dropped. *)
Lemma replace_from_skip s t old new :
  replace_from (s +:+ t) old new (String.length s) = replace_from t old new 0.
Proof. induction s as [|c s IH]; [done|]. rewrite append_cons. apply IH. Qed.

(** An occurrence at the head is replaced and the scan resumes behind it. *)
Lemma replace_from_match c old t new :
  replace_from (String c old +:+ t) (String c old) new 0
  = new +:+ replace_from t (String c old) new 0.
Proof.
  pose proof (HasPrefix_app (String c old) t) as Hp.
  rewrite append_cons in *. cbn [replace_from]. rewrite Hp.
  cbn [String.length Nat.pred]. by rewrite replace_from_skip.
Qed.

(** A stretch without dollar is copied when the pattern starts with one. *)
Lemma replace_from_dollar_free s t old new :
  dollar_free s →
  replace_from (s +:+ t) (String "$" old) new 0
  = s +:+ replace_from t (String "$" old) new 0.
Proof.
  induction s as [|c s IH]; [done|]. intros [Hc Hs].
  rewrite !append_cons. cbn [replace_from HasPrefix].
  rewrite bool_decide_eq_false_2 by done. cbn [andb]. by rewrite IH.
Qed.

Lemma replace_from_unchanged s old new :
  dollar_free s → replace_from s (String "$" old) new 0 = s.
Proof.
  intros Hs. rewrite <-(append_nil_r s) at 1.
  rewrite replace_from_dollar_free by done. cbn [replace_from].
  apply append_nil_r.
Qed.


Lemma ProcessTemplateVariables_singleton content variable replacement result :
  ProcessTemplateVariables content {[variable := replacement]} result
  ↔ result = ReplaceAll (ReplaceAll content ("${" +:+ variable +:+ "}") replacement)
                        ("$" +:+ variable) replacement.
Proof.
  unfold ProcessTemplateVariables. rewrite map_to_list_singleton. split.
  - intros (order & Hperm & ->). by apply Permutation_singleton_r in Hperm as ->.
  - intros ->. by exists [(variable, replacement)].
Qed.

End replace_all.



(** * Further properties of the validator *)

Section filter_with_seen.

Context (P : Violation → Prop) `{!∀ v, Decision (P v)}.

(** As [filter_panelsViolations], keeping track of the ids met before the
    selected panel. *)
Lemma filter_panelsViolations_seen seen i panels n panel :
  (∀ v, P v → panelIndex v = Some (i + n)%nat) →
  panels !! n = Some panel →
  filter P (panelsViolations seen i panels)
  = filter P (panelViolations (reverse (Panel_ID <$> take n panels) ++ seen)
                              (i + n) panel).
Proof.
  revert seen i n. induction panels as [|p rest IH]; intros seen i n HP Hn; [done|].
  cbn [panelsViolations]. rewrite filter_app. destruct n as [|n]; simplify_eq/=.
  - rewrite Nat.add_0_r in *.
    rewrite (filter_none P (panelsViolations _ _ _)), app_nil_r; [done|].
    eapply Forall_impl; [apply panelsViolations_index|].
    intros v [(k & Hk & ?) _] Hv. apply HP in Hv. simplify_eq. lia.
  - rewrite (filter_none P (panelViolations _ _ _)).
    2:{ eapply Forall_impl; [apply panelViolations_index|].
        intros v [Hk _] Hv. apply HP in Hv. simplify_eq. lia. }
    replace (i + S n)%nat with (S i + n)%nat in * by lia.
    rewrite (IH _ _ _ HP Hn). rewrite reverse_cons, <-app_assoc. done.
Qed.

Lemma filter_violations_panel_seen dashboard n panel :
  (∀ v, P v → panelIndex v = Some n) →
  Dashboard_Panels dashboard !! n = Some panel →
  filter P (violations dashboard)
  = filter P (panelViolations
                (reverse (Panel_ID <$> take n (Dashboard_Panels dashboard)))
                n panel).
Proof.
  intros HP Hn. unfold violations. rewrite !filter_app.
  rewrite (filter_panelsViolations_seen [] 0 _ n panel HP Hn), app_nil_r.
  rewrite (filter_none P (headViolations _)).
  2:{ eapply Forall_impl; [apply headViolations_index|].
      intros v [? _] Hv. apply HP in Hv. congruence. }
  rewrite (filter_none P (varsViolations _ _ _)).
  2:{ eapply Forall_impl; [apply varsViolations_index|].
      intros v [_ ?] Hv. apply HP in Hv. congruence. }
  by rewrite app_nil_r.
Qed.

End filter_with_seen.

(** X1. Validation succeeds only on well-formed dashboards: if
    [ValidateDashboard] returns [nil], the title is non-empty, the schema
    version is not zero, there is a panel, every panel has positive grid
    width and height, a type, a target if it is a query panel and a refId
    on every target, every template variable has a name and a type, and
    panel ids and variable names are pairwise distinct. *)
Theorem validation_passes_only_if_well_formed (dashboard : Dashboard) :
  ValidateDashboard dashboard = None → wellFormed dashboard.
Proof. apply ValidateDashboard_nil_iff. Qed.

Lemma validation_passes_only_if_well_formed_witness :
  ValidateDashboard scenarioA = None ∧ wellFormed scenarioA.
Proof.
  split; [reflexivity|].
  exact (validation_passes_only_if_well_formed scenarioA eq_refl).
Defined.

(** X2. The dashboard-level entries (fields [title], [schemaVersion] and
    [panels]) are, in this order, the title error when the title is empty,
    the schema version error when the schema version is zero, and the
    panels error when there is no panel; a negative schema version is
    accepted. *)
Theorem dashboard_level_errors (dashboard : Dashboard) :
  filter (λ e, Field e ∈ ["title"; "schemaVersion"; "panels"])
         (validationErrors dashboard)
  = (if decide (Dashboard_Title dashboard = "")
     then [ {| Field := "title"; Message := "title is required" |} ] else [])
    ++ (if decide (Dashboard_SchemaVersion dashboard = 0)
        then [ {| Field := "schemaVersion";
                  Message := "schemaVersion is required" |} ] else [])
    ++ (if decide (Dashboard_Panels dashboard = [])
        then [ {| Field := "panels";
                  Message := "at least one panel is required" |} ] else []).
Proof.
  rewrite validationErrors_render, filter_fmap.
  rewrite (list_filter_iff _ dashboardLevel)
    by (intros v; apply render_field_dashboardLevel).
  unfold violations, headViolations. rewrite !filter_app.
  rewrite (filter_when_True _ _ MissingTitle) by done.
  rewrite (filter_when_True _ _ MissingSchemaVersion) by done.
  rewrite (filter_when_True _ _ EmptyPanels) by done.
  rewrite (filter_none _ (panelsViolations _ _ _)).
  2:{ eapply Forall_impl; [apply panelsViolations_index|].
      intros v [(k & ? & _) _] ?. by destruct v. }
  rewrite (filter_none _ (varsViolations _ _ _)).
  2:{ eapply Forall_impl; [apply varsViolations_index|].
      intros v [(k & ? & _) _] ?. by destruct v. }
  rewrite !app_nil_r, !fmap_app.
  f_equal; [|f_equal].
  - by case_decide; [rewrite bool_decide_eq_true_2|rewrite bool_decide_eq_false_2].
  - by case_decide; [rewrite bool_decide_eq_true_2|rewrite bool_decide_eq_false_2].
  - by destruct (Dashboard_Panels dashboard).
Qed.

(** X3. The panel at index [i] has one entry with the path
    [panels[i].type] when its type is empty, and none otherwise. *)
Theorem panel_type_error (dashboard : Dashboard) (i : nat) (panel : Panel) :
  Dashboard_Panels dashboard !! i = Some panel →
  filter (λ e, Field e = "panels[" +:+ fmt_d (Z.of_nat i) +:+ "].type")
         (validationErrors dashboard)
  = if decide (Panel_Type panel = "")
    then [ {| Field := "panels[" +:+ fmt_d (Z.of_nat i) +:+ "].type";
              Message := "panel type is required" |} ]
    else [].
Proof.
  intros Hi. rewrite validationErrors_render, filter_fmap.
  rewrite (list_filter_iff _ (λ v, v = MissingPanelType i))
    by (intros v; apply render_field_panelType).
  destruct (filter_violations_panel (λ v, v = MissingPanelType i) dashboard i panel)
    as [seen ->]; [by intros v ->|done|].
  unfold panelViolations. rewrite !filter_app.
  rewrite !(filter_when_False _ _ (DuplicatePanelID _ _)) by done.
  rewrite !(filter_when_False _ _ (InvalidGridPos _)) by done.
  rewrite !(filter_when_False _ _ (MissingTargets _)) by done.
  rewrite (filter_when_True _ _ (MissingPanelType _)) by done.
  rewrite (filter_none _ (targetViolations _ _ _)).
  2:{ eapply Forall_impl; [apply targetViolations_index|]. by intros v [j ->]. }
  simpl. rewrite app_nil_r.
  by case_decide; [rewrite bool_decide_eq_true_2|rewrite bool_decide_eq_false_2].
Qed.

Lemma panel_type_error_witness :
  filter (λ e, Field e = "panels[0].type") (validationErrors untitledDashboard)
  = [ {| Field := "panels[0].type"; Message := "panel type is required" |} ]
  ∧ filter (λ e, Field e = "panels[1].type") (validationErrors untitledDashboard) = [].
Proof.
  split.
  - exact (panel_type_error untitledDashboard 0 _ eq_refl).
  - exact (panel_type_error untitledDashboard 1 _ eq_refl).
Defined.

(** X4. The panel at index [i] has one entry with the path [panels[i].id]
    exactly when its id is among the ids of the [i] panels before it; the
    entry names that id. *)
Theorem panel_id_flagged_iff_seen_earlier (dashboard : Dashboard) (i : nat)
    (panel : Panel) :
  Dashboard_Panels dashboard !! i = Some panel →
  filter (λ e, Field e = "panels[" +:+ fmt_d (Z.of_nat i) +:+ "].id")
         (validationErrors dashboard)
  = if decide (Panel_ID panel ∈ Panel_ID <$> take i (Dashboard_Panels dashboard))
    then [ {| Field := "panels[" +:+ fmt_d (Z.of_nat i) +:+ "].id";
              Message := "duplicate panel ID: " +:+ fmt_d (Panel_ID panel) |} ]
    else [].
Proof.
  intros Hi. rewrite validationErrors_render, filter_fmap.
  rewrite (list_filter_iff _ (aboutPanelID i))
    by (intros v; apply render_field_panelID).
  rewrite (filter_violations_panel_seen (aboutPanelID i) dashboard i panel);
    [| |done].
  2:{ intros v Hv. destruct v; simpl in *; by simplify_eq. }
  unfold panelViolations. rewrite !filter_app.
  rewrite (filter_when_True _ _ (DuplicatePanelID _ _)) by done.
  rewrite !(filter_when_False _ _ (MissingPanelType _)) by (by intros ?).
  rewrite !(filter_when_False _ _ (InvalidGridPos _)) by (by intros ?).
  rewrite !(filter_when_False _ _ (MissingTargets _)) by (by intros ?).
  rewrite (filter_none _ (targetViolations _ _ _)).
  2:{ eapply Forall_impl; [apply targetViolations_index|]. by intros v [j ->] ?. }
  rewrite !app_nil_r.
  case_decide as Hearlier.
  - rewrite bool_decide_eq_true_2; [done|]. by apply elem_of_reverse.
  - rewrite bool_decide_eq_false_2; [done|]. by rewrite elem_of_reverse.
Qed.

Lemma panel_id_flagged_iff_seen_earlier_witness :
  filter (λ e, Field e = "panels[0].id") (validationErrors untitledDashboard) = []
  ∧ filter (λ e, Field e = "panels[1].id") (validationErrors untitledDashboard)
    = [ {| Field := "panels[1].id"; Message := "duplicate panel ID: 5" |} ].
Proof.
  split.
  - exact (panel_id_flagged_iff_seen_earlier untitledDashboard 0 _ eq_refl).
  - exact (panel_id_flagged_iff_seen_earlier untitledDashboard 1 _ eq_refl).
Defined.


Section target_index.

Lemma targetViolations_index_ge i j targets :
  Forall (λ v, ∃ k, v = MissingRefID i k ∧ (j ≤ k)%nat) (targetViolations i j targets).
Proof.
  revert j. induction targets as [|t rest IH]; intros j; simpl; [done|].
  apply Forall_app. split; [apply Forall_when; eauto|].
  eapply Forall_impl; [apply IH|]. intros v (k & -> & ?). exists k. split; [done|lia].
Qed.

Lemma filter_targetViolations i j targets n target :
  targets !! n = Some target →
  filter (λ v, v = MissingRefID i (j + n)) (targetViolations i j targets)
  = when (bool_decide (Target_RefID target = "")) (MissingRefID i (j + n)).
Proof.
  revert j n. induction targets as [|t rest IH]; intros j n Hn; [done|].
  cbn [targetViolations]. rewrite filter_app. destruct n as [|n]; simplify_eq/=.
  - rewrite Nat.add_0_r. rewrite filter_when_True by done.
    rewrite (filter_none _ (targetViolations _ _ _)), app_nil_r; [done|].
    eapply Forall_impl; [apply targetViolations_index_ge|].
    intros v (k & -> & ?) [= ?]. lia.
  - rewrite filter_when_False by (intros [= ?]; lia).
    replace (j + S n)%nat with (S j + n)%nat by lia. by apply IH.
Qed.

End target_index.

(** X5. The target at index [j] of the panel at index [i] has one entry
    with the path [panels[i].targets[j].refId] when its refId is empty, and
    none otherwise, whatever the type of the panel. *)
Theorem target_refId_error (dashboard : Dashboard) (i j : nat)
    (panel : Panel) (target : Target) :
  Dashboard_Panels dashboard !! i = Some panel →
  Panel_Targets panel !! j = Some target →
  filter (λ e, Field e = "panels[" +:+ fmt_d (Z.of_nat i) +:+ "].targets["
                         +:+ fmt_d (Z.of_nat j) +:+ "].refId")
         (validationErrors dashboard)
  = if decide (Target_RefID target = "")
    then [ {| Field := "panels[" +:+ fmt_d (Z.of_nat i) +:+ "].targets["
                       +:+ fmt_d (Z.of_nat j) +:+ "].refId";
              Message := "target refId is required" |} ]
    else [].
Proof.
  intros Hi Hj. rewrite validationErrors_render, filter_fmap.
  rewrite (list_filter_iff _ (λ v, v = MissingRefID i j))
    by (intros v; apply render_field_refId).
  destruct (filter_violations_panel (λ v, v = MissingRefID i j) dashboard i panel)
    as [seen ->]; [by intros v ->|done|].
  unfold panelViolations. rewrite !filter_app.
  rewrite !(filter_when_False _ _ (DuplicatePanelID _ _)) by done.
  rewrite !(filter_when_False _ _ (MissingPanelType _)) by done.
  rewrite !(filter_when_False _ _ (InvalidGridPos _)) by done.
  rewrite !(filter_when_False _ _ (MissingTargets _)) by done.
  pose proof (filter_targetViolations i 0 _ j target Hj) as Ht.
  rewrite Nat.add_0_l in Ht. rewrite Ht. simpl.
  by case_decide; [rewrite bool_decide_eq_true_2|rewrite bool_decide_eq_false_2].
Qed.

Lemma target_refId_error_witness :
  filter (λ e, Field e = "panels[0].targets[0].refId")
         (validationErrors textTargetDashboard)
  = [ {| Field := "panels[0].targets[0].refId";
         Message := "target refId is required" |} ]
  ∧ filter (λ e, Field e = "panels[0].targets[0].refId") (validationErrors scenarioA)
    = [].
Proof.
  split.
  - exact (target_refId_error textTargetDashboard 0 0 _ _ eq_refl eq_refl).
  - exact (target_refId_error scenarioA 0 0 _ _ eq_refl eq_refl).
Defined.

(** X6. The template variable at index [i] has, under the path
    [templating.list[i].name], the missing-name error when its name is
    empty, followed by the duplicate-name error when its name is among the
    names of the [i] variables before it, and nothing else. *)
Theorem variable_name_errors (dashboard : Dashboard) (i : nat)
    (variable : TemplateVariable) :
  Templating_List (Dashboard_Templating dashboard) !! i = Some variable →
  filter (λ e, Field e = "templating.list[" +:+ fmt_d (Z.of_nat i) +:+ "].name")
         (validationErrors dashboard)
  = (if decide (TemplateVariable_Name variable = "")
     then [ {| Field := "templating.list[" +:+ fmt_d (Z.of_nat i) +:+ "].name";
               Message := "variable name is required" |} ]
     else [])
    ++ (if decide (TemplateVariable_Name variable
                   ∈ TemplateVariable_Name
                     <$> take i (Templating_List (Dashboard_Templating dashboard)))
        then [ {| Field := "templating.list[" +:+ fmt_d (Z.of_nat i) +:+ "].name";
                  Message := "duplicate variable name: "
                             +:+ TemplateVariable_Name variable |} ]
        else []).
Proof.
  intros Hi. rewrite validationErrors_render, filter_fmap.
  rewrite (list_filter_iff _ (aboutVarName i))
    by (intros v; apply render_field_varName).
  rewrite (filter_violations_var (aboutVarName i) dashboard i variable); [| |done].
  2:{ intros v Hv. destruct v; simpl in *; by simplify_eq. }
  unfold varViolations. rewrite !filter_app.
  rewrite (filter_when_True _ _ (MissingVarName _)) by done.
  rewrite (filter_when_True _ _ (DuplicateVarName _ _)) by done.
  rewrite (filter_when_False _ _ (MissingVarType _)) by (by intros ?).
  rewrite app_nil_r, fmap_app. f_equal.
  - by case_decide; [rewrite bool_decide_eq_true_2|rewrite bool_decide_eq_false_2].
  - case_decide as Hearlier.
    + rewrite bool_decide_eq_true_2; [done|]. by apply elem_of_reverse.
    + rewrite bool_decide_eq_false_2; [done|]. by rewrite elem_of_reverse.
Qed.

Lemma variable_name_errors_witness :
  filter (λ e, Field e = "templating.list[0].name") (validationErrors scenarioD) = []
  ∧ filter (λ e, Field e = "templating.list[1].name") (validationErrors scenarioD)
    = [ {| Field := "templating.list[1].name";
           Message := "duplicate variable name: namespace" |} ].
Proof.
  split.
  - exact (variable_name_errors scenarioD 0 _ eq_refl).
  - exact (variable_name_errors scenarioD 1 _ eq_refl).
Defined.

(** X7. The template variable at index [i] has one entry with the path
    [templating.list[i].type] when its type is empty, and none otherwise. *)
Theorem variable_type_error (dashboard : Dashboard) (i : nat)
    (variable : TemplateVariable) :
  Templating_List (Dashboard_Templating dashboard) !! i = Some variable →
  filter (λ e, Field e = "templating.list[" +:+ fmt_d (Z.of_nat i) +:+ "].type")
         (validationErrors dashboard)
  = if decide (TemplateVariable_Type variable = "")
    then [ {| Field := "templating.list[" +:+ fmt_d (Z.of_nat i) +:+ "].type";
              Message := "variable type is required" |} ]
    else [].
Proof.
  intros Hi. rewrite validationErrors_render, filter_fmap.
  rewrite (list_filter_iff _ (λ v, v = MissingVarType i))
    by (intros v; apply render_field_varType).
  rewrite (filter_violations_var (λ v, v = MissingVarType i) dashboard i variable);
    [|by intros v ->|done].
  unfold varViolations. rewrite !filter_app.
  rewrite (filter_when_False _ _ (MissingVarName _)) by done.
  rewrite (filter_when_False _ _ (DuplicateVarName _ _)) by done.
  rewrite (filter_when_True _ _ (MissingVarType _)) by done.
  simpl.
  by case_decide; [rewrite bool_decide_eq_true_2|rewrite bool_decide_eq_false_2].
Qed.

Lemma variable_type_error_witness :
  filter (λ e, Field e = "templating.list[0].type")
         (validationErrors untypedVariableDashboard)
  = [ {| Field := "templating.list[0].type";
         Message := "variable type is required" |} ]
  ∧ filter (λ e, Field e = "templating.list[1].type")
           (validationErrors namelessDashboard) = [].
Proof.
  split.
  - exact (variable_type_error untypedVariableDashboard 0 _ eq_refl).
  - exact (variable_type_error namelessDashboard 1 _ eq_refl).
Defined.

Section grouping.

Lemma mjoin_panelBlocks seen i panels :
  mjoin ((λ block, render <$> block) <$> panelBlocks seen i panels)
  = render <$> panelsViolations seen i panels.
Proof.
  revert seen i. induction panels as [|p rest IH]; intros seen i; [done|].
  cbn [panelBlocks panelsViolations fmap list_fmap mjoin list_join].
  rewrite fmap_app. f_equal. apply IH.
Qed.

Lemma mjoin_varBlocks seen i variables :
  mjoin ((λ block, render <$> block) <$> varBlocks seen i variables)
  = render <$> varsViolations seen i variables.
Proof.
  revert seen i. induction variables as [|x rest IH]; intros seen i; [done|].
  cbn [varBlocks varsViolations fmap list_fmap mjoin list_join].
  rewrite fmap_app. f_equal. apply IH.
Qed.

Lemma length_panelBlocks seen i panels :
  length (panelBlocks seen i panels) = length panels.
Proof.
  revert seen i. induction panels as [|p rest IH]; intros seen i; [done|].
  simpl. by rewrite IH.
Qed.

Lemma length_varBlocks seen i variables :
  length (varBlocks seen i variables) = length variables.
Proof.
  revert seen i. induction variables as [|x rest IH]; intros seen i; [done|].
  simpl. by rewrite IH.
Qed.

Lemma panelBlocks_lookup seen i panels n block :
  panelBlocks seen i panels !! n = Some block →
  Forall (λ v, panelIndex v = Some (i + n)%nat) block.
Proof.
  revert seen i n. induction panels as [|p rest IH]; intros seen i n Hn; [done|].
  destruct n as [|n]; simplify_eq/=.
  - rewrite Nat.add_0_r. eapply Forall_impl; [apply panelViolations_index|].
    by intros v [? _].
  - replace (i + S n)%nat with (S i + n)%nat by lia. by eapply IH.
Qed.

Lemma varBlocks_lookup seen i variables n block :
  varBlocks seen i variables !! n = Some block →
  Forall (λ v, varIndex v = Some (i + n)%nat) block.
Proof.
  revert seen i n. induction variables as [|x rest IH]; intros seen i n Hn; [done|].
  destruct n as [|n]; simplify_eq/=.
  - rewrite Nat.add_0_r. eapply Forall_impl; [apply varViolations_index|].
    by intros v [? _].
  - replace (i + S n)%nat with (S i + n)%nat by lia. by eapply IH.
Qed.

Lemma HasPrefix_of_app s prefix rest : s = prefix +:+ rest → HasPrefix s prefix = true.
Proof. intros ->. apply HasPrefix_app. Qed.

Lemma panelIndex_prefix v i :
  panelIndex v = Some i →
  HasPrefix (Field (render v)) ("panels[" +:+ fmt_d (Z.of_nat i) +:+ "].") = true.
Proof.
  destruct v; intros Hv; simplify_eq/=.
  - apply (HasPrefix_of_app _ _ "id"). by rewrite !append_assoc.
  - apply (HasPrefix_of_app _ _ "type"). by rewrite !append_assoc.
  - apply (HasPrefix_of_app _ _ "gridPos"). by rewrite !append_assoc.
  - apply (HasPrefix_of_app _ _ "targets"). by rewrite !append_assoc.
  - apply (HasPrefix_of_app _ _ ("targets[" +:+ fmt_d (Z.of_nat j) +:+ "].refId")).
    by rewrite !append_assoc.
Qed.

Lemma varIndex_prefix v i :
  varIndex v = Some i →
  HasPrefix (Field (render v)) ("templating.list[" +:+ fmt_d (Z.of_nat i) +:+ "].") = true.
Proof.
  destruct v; intros Hv; simplify_eq/=.
  - apply (HasPrefix_of_app _ _ "name"). by rewrite !append_assoc.
  - apply (HasPrefix_of_app _ _ "name"). by rewrite !append_assoc.
  - apply (HasPrefix_of_app _ _ "type"). by rewrite !append_assoc.
Qed.

Lemma headViolations_dashboardLevel dashboard :
  Forall dashboardLevel (headViolations dashboard).
Proof.
  unfold headViolations. repeat (apply Forall_app; split); by apply Forall_when.
Qed.

End grouping.

(** X8. The error slice is grouped and ordered: first the dashboard-level
    entries, then one block of entries per panel in the order of the panels,
    all paths of the [i]-th block starting with [panels[i].], then one block
    per template variable in the order of the variables, all paths of the
    [i]-th block starting with [templating.list[i].]. *)
Theorem errors_grouped_in_order (dashboard : Dashboard) :
  ∃ (head : list ValidationError) (panelPart variablePart : list (list ValidationError)),
    validationErrors dashboard = head ++ mjoin panelPart ++ mjoin variablePart
    ∧ Forall (λ e, Field e ∈ ["title"; "schemaVersion"; "panels"]) head
    ∧ length panelPart = length (Dashboard_Panels dashboard)
    ∧ (∀ i block, panelPart !! i = Some block →
         Forall (λ e, HasPrefix (Field e)
                        ("panels[" +:+ fmt_d (Z.of_nat i) +:+ "].") = true) block)
    ∧ length variablePart
      = length (Templating_List (Dashboard_Templating dashboard))
    ∧ (∀ i block, variablePart !! i = Some block →
         Forall (λ e, HasPrefix (Field e)
                        ("templating.list[" +:+ fmt_d (Z.of_nat i) +:+ "].") = true)
                block).
Proof.
  exists (render <$> headViolations dashboard),
         ((λ block : list Violation, render <$> block)
            <$> panelBlocks [] 0 (Dashboard_Panels dashboard)),
         ((λ block : list Violation, render <$> block)
            <$> varBlocks [] 0 (Templating_List (Dashboard_Templating dashboard))).
  split_and!.
  - rewrite validationErrors_render. unfold violations.
    by rewrite !fmap_app, mjoin_panelBlocks, mjoin_varBlocks.
  - apply Forall_fmap. eapply Forall_impl; [apply headViolations_dashboardLevel|].
    intros v Hv. simpl. by apply render_field_dashboardLevel.
  - by rewrite length_fmap, length_panelBlocks.
  - intros i block Hi. apply list_lookup_fmap_Some in Hi as (vs & -> & Hi).
    apply Forall_fmap. eapply Forall_impl; [by eapply panelBlocks_lookup|].
    intros v Hv. simpl. by apply panelIndex_prefix.
  - by rewrite length_fmap, length_varBlocks.
  - intros i block Hi. apply list_lookup_fmap_Some in Hi as (vs & -> & Hi).
    apply Forall_fmap. eapply Forall_impl; [by eapply varBlocks_lookup|].
    intros v Hv. simpl. by apply varIndex_prefix.
Qed.

Lemma errors_grouped_in_order_witness :
  ∃ (head : list ValidationError) (panelPart variablePart : list (list ValidationError)),
    validationErrors untitledDashboard = head ++ mjoin panelPart ++ mjoin variablePart
    ∧ Forall (λ e, Field e ∈ ["title"; "schemaVersion"; "panels"]) head
    ∧ length panelPart = length (Dashboard_Panels untitledDashboard)
    ∧ (∀ i block, panelPart !! i = Some block →
         Forall (λ e, HasPrefix (Field e)
                        ("panels[" +:+ fmt_d (Z.of_nat i) +:+ "].") = true) block)
    ∧ length variablePart
      = length (Templating_List (Dashboard_Templating untitledDashboard))
    ∧ (∀ i block, variablePart !! i = Some block →
         Forall (λ e, HasPrefix (Field e)
                        ("templating.list[" +:+ fmt_d (Z.of_nat i) +:+ "].") = true)
                block).
Proof. exact (errors_grouped_in_order untitledDashboard). Defined.

Section views.

Lemma targetViolations_view i j targets1 targets2 :
  Target_RefID <$> targets1 = Target_RefID <$> targets2 →
  targetViolations i j targets1 = targetViolations i j targets2.
Proof.
  revert j targets2. induction targets1 as [|t1 rest1 IH];
    intros j [|t2 rest2] Heq; cbn [fmap list_fmap] in Heq; try done.
  injection Heq as Hhead Htail. cbn [targetViolations].
  rewrite Hhead. f_equal. by apply IH.
Qed.

Lemma panelViolations_view seen i panel1 panel2 :
  panelView panel1 = panelView panel2 →
  panelViolations seen i panel1 = panelViolations seen i panel2.
Proof.
  unfold panelView, panelViolations, badGrid. intros [= Hid Htype Hw Hh Hrefs].
  rewrite (targetViolations_view _ _ _ _ Hrefs), Hid, Htype, Hw, Hh.
  assert (length (Panel_Targets panel1) = length (Panel_Targets panel2)) as ->; [|done].
  by rewrite <-(length_fmap Target_RefID), Hrefs, length_fmap.
Qed.

Lemma panelsViolations_view seen i panels1 panels2 :
  panelView <$> panels1 = panelView <$> panels2 →
  panelsViolations seen i panels1 = panelsViolations seen i panels2.
Proof.
  revert seen i panels2. induction panels1 as [|p1 rest1 IH];
    intros seen i [|p2 rest2] Heq; cbn [fmap list_fmap] in Heq; try done.
  assert (panelView p1 = panelView p2
          ∧ panelView <$> rest1 = panelView <$> rest2) as [Hp Htail]
    by (split; congruence).
  cbn [panelsViolations].
  rewrite (panelViolations_view _ _ _ _ Hp).
  assert (Panel_ID p1 = Panel_ID p2) as -> by (by injection Hp).
  f_equal. by apply IH.
Qed.

Lemma varsViolations_view seen i variables1 variables2 :
  variableView <$> variables1 = variableView <$> variables2 →
  varsViolations seen i variables1 = varsViolations seen i variables2.
Proof.
  revert seen i variables2. induction variables1 as [|x1 rest1 IH];
    intros seen i [|x2 rest2] Heq; cbn [fmap list_fmap] in Heq; try done.
  assert (variableView x1 = variableView x2
          ∧ variableView <$> rest1 = variableView <$> rest2) as [Hx Htail]
    by (split; congruence).
  injection Hx as Hname Htype. cbn [varsViolations].
  unfold varViolations. rewrite Hname, Htype. f_equal. by apply IH.
Qed.

End views.

(** X9. Validation reads only the title, the schema version, each panel's
    id, type, grid width and height and the refIds of its targets, and each
    template variable's name and type: two dashboards that agree on these
    get the same error slice and the same result, whatever their
    descriptions, tags, uids, time ranges, panel titles, query expressions
    or variable queries. *)
Theorem validation_reads_only_its_view (first second : Dashboard) :
  dashboardView first = dashboardView second →
  validationErrors first = validationErrors second
  ∧ ValidateDashboard first = ValidateDashboard second.
Proof.
  intros Hview.
  assert (validationErrors first = validationErrors second) as Herrors.
  { rewrite !validationErrors_render. f_equal.
    unfold dashboardView in Hview. injection Hview as Htitle Hversion Hpanels Hvars.
    unfold violations, headViolations.
    rewrite (panelsViolations_view _ _ _ _ Hpanels), (varsViolations_view _ _ _ _ Hvars).
    rewrite Htitle, Hversion.
    assert (length (Dashboard_Panels first) = length (Dashboard_Panels second)) as ->;
      [|done].
    by rewrite <-(length_fmap panelView), Hpanels, length_fmap. }
  split; [done|]. unfold ValidateDashboard. by rewrite Herrors.
Qed.

Lemma validation_reads_only_its_view_witness :
  validationErrors passingDashboard = validationErrors scenarioE
  ∧ ValidateDashboard passingDashboard = ValidateDashboard scenarioE.
Proof. exact (validation_reads_only_its_view passingDashboard scenarioE eq_refl). Defined.

(** * Further properties of the substitution *)

Section substitution.

Lemma brace_pattern variable :
  "${" +:+ variable +:+ "}" = String "$" (String "{" (variable +:+ "}")).
Proof. done. Qed.

Lemma bare_pattern variable : "$" +:+ variable = String "$" variable.
Proof. done. Qed.

Lemma ReplaceAll_dollar_free s old new :
  dollar_free s → ReplaceAll s (String "$" old) new = s.
Proof. apply replace_from_unchanged. Qed.

Lemma substituteVariable_dollar_free s entry :
  dollar_free s → substituteVariable s entry = s.
Proof.
  intros Hs. destruct entry as [variable replacement]. unfold substituteVariable.
  rewrite brace_pattern, bare_pattern.
  rewrite (ReplaceAll_dollar_free s) by done. by apply ReplaceAll_dollar_free.
Qed.

Lemma ProcessTemplateVariables_in_dollar_free s order :
  dollar_free s → ProcessTemplateVariables_in s order = s.
Proof.
  intros Hs. unfold ProcessTemplateVariables_in.
  induction order as [|entry order IH]; [done|].
  cbn [foldl]. by rewrite substituteVariable_dollar_free.
Qed.


(** A text that is exactly the pattern is replaced by the new text. *)
Lemma ReplaceAll_whole c old new :
  ReplaceAll (String c old) (String c old) new = new.
Proof.
  unfold ReplaceAll. rewrite <-(append_nil_r (String c old)) at 1.
  rewrite replace_from_match. cbn [replace_from]. apply append_nil_r.
Qed.


End substitution.

(** X10. A text without dollar sign is returned unchanged, for every mapping
    and every order in which its entries are visited. *)
Theorem substitution_leaves_dollar_free_text (content : string)
    (replacements : gmap string string) (result : string) :
  dollar_free content →
  ProcessTemplateVariables content replacements result ↔ result = content.
Proof.
  intros Hfree. unfold ProcessTemplateVariables. split.
  - intros (order & _ & ->). by apply ProcessTemplateVariables_in_dollar_free.
  - intros ->. exists (map_to_list replacements). split; [done|].
    by rewrite ProcessTemplateVariables_in_dollar_free.
Qed.

Lemma substitution_leaves_dollar_free_text_witness :
  ProcessTemplateVariables "rate(http_requests_total[5m])"
    {["NAMESPACE" := "prod"; "JOB" := "api"]} "rate(http_requests_total[5m])".
Proof.
  refine (proj2 (substitution_leaves_dollar_free_text _ _ _ _) eq_refl).
  simpl. split_and!; done.
Defined.



(** X12. A replacement value is itself rescanned: with the single entry
    [name ↦ value], the text [${name}] becomes [value] with every [$name]
    inside it replaced by [value] once more. *)
Theorem substitution_rescans_value (name value result : string) :
  ProcessTemplateVariables ("${" +:+ name +:+ "}") {[name := value]} result
  ↔ result = ReplaceAll value ("$" +:+ name) value.
Proof.
  rewrite ProcessTemplateVariables_singleton.
  by rewrite brace_pattern, ReplaceAll_whole.
Qed.

Lemma substitution_rescans_value_witness :
  ProcessTemplateVariables "${NAME}" {["NAME" := "$NAME!"]} "$NAME!!".
Proof. exact (proj2 (substitution_rescans_value "NAME" "$NAME!" "$NAME!!") eq_refl). Defined.

(** * formatFileSize *)

Section file_size.

Lemma wrap64_small z : - 2 ^ 63 ≤ z < 2 ^ 63 → wrap64 z = z.
Proof. intros Hz. unfold wrap64. rewrite Z.mod_small; lia. Qed.

Lemma div_lt_inv a b q : 0 < b → a `div` b < q → a < b * q.
Proof.
  intros Hb Hlt. destruct (decide (a < b * q)) as [|Hge]; [done|].
  assert (q ≤ a `div` b) by (apply Z.div_le_lower_bound; lia). lia.
Qed.

Lemma log2_div_1024 n : 1024 ≤ n → Z.log2 (n `div` 1024) < Z.log2 n.
Proof.
  intros Hn.
  assert (0 < n `div` 1024) by (apply Z.div_str_pos; lia).
  apply Z.log2_lt_pow2; [done|].
  pose proof (Z.log2_spec n ltac:(lia)) as [_ Hhi].
  rewrite Z.pow_succ_r in Hhi by (apply Z.log2_nonneg).
  apply Z.div_lt_upper_bound; lia.
Qed.

(** The loop invariant: [div] is the power [1024 ^ (exp + 1)], it does not
    exceed the size, and [n] is the size divided by it. *)
Lemma scaleLoop_spec size fuel n div exp :
  0 ≤ exp → div = 1024 ^ (exp + 1) → div ≤ size < 2 ^ 63 →
  n = size `div` div → Z.log2 n ≤ Z.of_nat fuel →
  ∃ exp', exp ≤ exp'
          ∧ scaleLoop fuel n div exp = Some (1024 ^ (exp' + 1), exp')
          ∧ 1024 ^ (exp' + 1) ≤ size < 1024 ^ (exp' + 2).
Proof.
  revert n div exp. induction fuel as [|fuel IH]; intros n div exp Hexp Hdiv Hsize Hn Hfuel.
  - assert (¬ 1024 ≤ n) as Hloop.
    { intros Hloop. pose proof (Z.log2_le_mono 1024 n Hloop) as Hlog.
      change (Z.log2 1024) with 10 in Hlog. lia. }
    simpl. rewrite decide_False by done. exists exp. split_and!; [lia|by subst|lia|].
    subst div n. replace (exp + 2) with (Z.succ (exp + 1)) by lia.
    rewrite Z.pow_succ_r by lia.
    assert (0 < 1024 ^ (exp + 1)) by (apply Z.pow_pos_nonneg; lia).
    assert (size `div` 1024 ^ (exp + 1) < 1024) as Hlt by lia.
    apply div_lt_inv in Hlt; lia.
  - cbn [scaleLoop]. case_decide as Hloop.
    + assert (0 < div) by (subst div; apply Z.pow_pos_nonneg; lia).
      assert (div * 1024 ≤ size) as Hnext.
      { subst n. pose proof (Z.mul_div_le size div). nia. }
      rewrite wrap64_small by lia.
      rewrite Z.quot_div_nonneg by lia.
      destruct (IH (n `div` 1024) (div * 1024) (exp + 1)) as (exp' & ? & -> & ?).
      * lia.
      * subst div. replace (exp + 1 + 1) with (Z.succ (exp + 1)) by lia.
        rewrite Z.pow_succ_r by lia. lia.
      * lia.
      * subst n. rewrite Z.div_div by lia. done.
      * pose proof (log2_div_1024 n Hloop). lia.
      * exists exp'. split_and!; [lia|done|lia|lia].
    + exists exp. split_and!; [lia|by subst|lia|].
      subst div n. replace (exp + 2) with (Z.succ (exp + 1)) by lia.
      rewrite Z.pow_succ_r by lia.
      assert (0 < 1024 ^ (exp + 1)) by (apply Z.pow_pos_nonneg; lia).
      assert (size `div` 1024 ^ (exp + 1) < 1024) as Hlt by lia.
      apply div_lt_inv in Hlt; lia.
Qed.

Lemma unitLetter_in_range exp : 0 ≤ exp ≤ 5 → is_Some (unitLetter exp).
Proof.
  intros Hexp. assert (exp = 0 ∨ exp = 1 ∨ exp = 2 ∨ exp = 3 ∨ exp = 4 ∨ exp = 5)
    as Hcases by lia.
  destruct_or?; subst; by eexists.
Qed.

End file_size.

(** X13. For every [int64] size of at least 1024 bytes, [formatFileSize]
    leaves its loop and does not panic: the exponent [exp] it reaches is at
    most 5, so the index into [KMGTPE] is in range; the divisor is exactly
    [1024 ^ (exp + 1)], computed without overflow; and the size lies between
    the divisor and 1024 times the divisor, so the number that is printed
    is at least 1 and below 1024. *)
Theorem formatFileSize_scaled (size : Z) :
  1024 ≤ size < 2 ^ 63 →
  ∃ exp unit,
    0 ≤ exp ≤ 5
    ∧ unitLetter exp = Some unit
    ∧ formatFileSize size = Some (SizeScaled size (1024 ^ (exp + 1)) unit)
    ∧ 1024 ^ (exp + 1) ≤ size < 1024 * 1024 ^ (exp + 1).
Proof.
  intros Hsize. unfold formatFileSize. rewrite decide_False by lia.
  destruct (scaleLoop_spec size (Z.to_nat (Z.log2 size)) (size `quot` 1024) 1024 0)
    as (exp & Hexp & -> & Hlo & Hhi); try done; try lia.
  { rewrite Z.quot_div_nonneg by lia. done. }
  { rewrite Z.quot_div_nonneg by lia.
    pose proof (log2_div_1024 size ltac:(lia)).
    pose proof (Z.log2_nonneg size). lia. }
  assert (exp ≤ 5) as Hmax.
  { destruct (decide (exp ≤ 5)) as [|Hbig]; [done|].
    assert (1024 ^ 7 ≤ 1024 ^ (exp + 1)) by (apply Z.pow_le_mono_r; lia).
    assert (1024 ^ 7 = 2 ^ 70) as Heq by done. lia. }
  destruct (unitLetter_in_range exp) as [unit Hunit]; [lia|].
  exists exp, unit. rewrite Hunit. split_and!; try done; try lia.
  replace (exp + 2) with (Z.succ (exp + 1)) in Hhi by lia.
  rewrite Z.pow_succ_r in Hhi by lia. done.
Qed.

Lemma formatFileSize_scaled_witness :
  1024 ≤ 1536 < 2 ^ 63
  ∧ ∃ exp unit,
      0 ≤ exp ≤ 5
      ∧ unitLetter exp = Some unit
      ∧ formatFileSize 1536 = Some (SizeScaled 1536 (1024 ^ (exp + 1)) unit)
      ∧ 1024 ^ (exp + 1) ≤ 1536 < 1024 * 1024 ^ (exp + 1).
Proof. split; [lia|]. apply (formatFileSize_scaled 1536). lia. Defined.

Example formatFileSize_examples :
  formatFileSize 1023 = Some (SizeBytes "1023 B")
  ∧ formatFileSize 1536 = Some (SizeScaled 1536 1024 "K")
  ∧ formatFileSize (5 * 1024 ^ 3) = Some (SizeScaled (5 * 1024 ^ 3) (1024 ^ 3) "G")
  ∧ formatFileSize (2 ^ 63 - 1) = Some (SizeScaled (2 ^ 63 - 1) (1024 ^ 6) "E").
Proof. by vm_compute. Qed.

(** * File selection and dashboard names *)

Example Ext_examples :
  Ext "dashboards/core/cpu.json" = ".json"
  ∧ Ext "a/b.tar.json" = ".json"
  ∧ Ext "a.json/readme" = ""
  ∧ Ext ".json" = ".json"
  ∧ Ext "json" = ""
  ∧ Ext "" = "".
Proof. by vm_compute. Qed.

Example Base_examples :
  Base "dashboards/core/cpu.json" = "cpu.json"
  ∧ Base "/a/b/" = "b"
  ∧ Base "" = "."
  ∧ Base "///" = "/"
  ∧ Base "cpu.json" = "cpu.json".
Proof. by vm_compute. Qed.

Example dashboardName_examples :
  dashboardName "dashboards/core/cpu.json" = Some "cpu"
  ∧ dashboardName "dashboards/.json" = Some ""
  ∧ dashboardName "a/b" = None.
Proof. by vm_compute. Qed.

Section string_slices.

Lemma length_append (s t : string) :
  String.length (s +:+ t) = (String.length s + String.length t)%nat.
Proof. induction s as [|c s IH]; [done|]. rewrite append_cons. simpl. by rewrite IH. Qed.

Lemma get_append_r (p s : string) (k : nat) :
  String.get (String.length p + k) (p +:+ s) = String.get k s.
Proof. induction p as [|c p IH]; [done|]. rewrite append_cons. simpl. apply IH. Qed.

Lemma get_append_l (p s : string) (i : nat) :
  (i < String.length p)%nat → String.get i (p +:+ s) = String.get i p.
Proof.
  revert i. induction p as [|c p IH]; intros i Hi; simpl in Hi; [lia|].
  rewrite append_cons. destruct i as [|i]; [done|]. simpl. apply IH. lia.
Qed.

Lemma string_drop_append_r (p s : string) (k : nat) :
  string_drop (String.length p + k) (p +:+ s) = string_drop k s.
Proof. induction p as [|c p IH]; [done|]. rewrite append_cons. simpl. apply IH. Qed.

Lemma string_drop_append_l (p s : string) (i : nat) :
  (i ≤ String.length p)%nat → string_drop i (p +:+ s) = string_drop i p +:+ s.
Proof.
  revert i. induction p as [|c p IH]; intros i Hi; simpl in Hi.
  - by replace i with 0%nat by lia.
  - destruct i as [|i]; [done|]. rewrite append_cons. simpl. apply IH. lia.
Qed.

Lemma string_take_append (p s : string) :
  string_take (String.length p) (p +:+ s) = p.
Proof. induction p as [|c p IH]; [by destruct s|]. rewrite append_cons. simpl. by rewrite IH. Qed.

Lemma string_take_all (s : string) : string_take (String.length s) s = s.
Proof. induction s as [|c s IH]; [done|]. simpl. by rewrite IH. Qed.

Lemma string_take_drop (n : nat) (s : string) :
  string_take n s +:+ string_drop n s = s.
Proof.
  revert s. induction n as [|n IH]; intros [|c s]; try done.
  simpl. rewrite append_cons. by rewrite IH.
Qed.

Lemma length_string_drop (n : nat) (s : string) :
  String.length (string_drop n s) = (String.length s - n)%nat.
Proof. revert s. induction n as [|n IH]; intros [|c s]; simpl; try done; lia. Qed.

Lemma string_drop_get (i : nat) (s : string) (c : ascii) :
  String.get i s = Some c → string_drop i s = String c (string_drop (S i) s).
Proof.
  revert s. induction i as [|i IH]; intros [|d s] Hget; simplify_eq/=; [done|].
  by apply IH.
Qed.

Lemma string_drop_same_length (i j : nat) (s : string) :
  (i ≤ String.length s)%nat → (j ≤ String.length s)%nat →
  String.length (string_drop i s) = String.length (string_drop j s) → i = j.
Proof. rewrite !length_string_drop. lia. Qed.

Lemma append_snoc (p : string) (c : ascii) (s : string) :
  p +:+ String c s = (p +:+ String c "") +:+ s.
Proof. by rewrite append_assoc. Qed.

End string_slices.

Section extension.

Lemma extScan_plain (e p : string) :
  plain e →
  extScan (p +:+ e) (String.length p + String.length e) = extScan (p +:+ e) (String.length p).
Proof.
  revert p. induction e as [|c e IH]; intros p He.
  - simpl. by rewrite Nat.add_0_r.
  - destruct He as (Hdot & Hslash & He).
    rewrite append_snoc.
    replace (String.length p + String.length (String c e))%nat
      with (String.length (p +:+ String c "") + String.length e)%nat
      by (rewrite length_append; simpl; lia).
    rewrite IH by done. rewrite length_append. simpl String.length.
    replace (String.length p + 1)%nat with (S (String.length p)) by lia.
    cbn [extScan]. rewrite <-append_snoc.
    pose proof (get_append_r p (String c e) 0) as Hget.
    rewrite Nat.add_0_r in Hget. rewrite Hget. simpl.
    unfold IsPathSeparator.
    by rewrite !bool_decide_eq_false_2.
Qed.

Lemma Ext_dot (p e : string) : plain e → Ext (p +:+ String "." e) = String "." e.
Proof.
  intros He. unfold Ext. rewrite append_snoc, length_append.
  rewrite extScan_plain by done. rewrite length_append. simpl String.length.
  replace (String.length p + 1)%nat with (S (String.length p)) by lia.
  cbn [extScan]. rewrite <-append_snoc.
  pose proof (get_append_r p (String "." e) 0) as Hget.
  rewrite Nat.add_0_r in Hget. rewrite Hget. simpl.
  pose proof (string_drop_append_r p (String "." e) 0) as Hdrop.
  rewrite Nat.add_0_r in Hdrop. by rewrite Hdrop.
Qed.

Lemma extScan_result (path : string) (k : nat) :
  (k ≤ String.length path)%nat →
  extScan path k = "" ∨ ∃ i, (i < k)%nat ∧ extScan path k = string_drop i path.
Proof.
  induction k as [|k IH]; intros Hk; [by left|].
  cbn [extScan]. destruct (String.get k path) as [c|]; [|by left].
  destruct (IsPathSeparator c); [by left|].
  destruct (bool_decide (c = "."%char)).
  - right. exists k. split; [lia|done].
  - destruct IH as [->|(i & ? & ->)]; [lia|by left|].
    right. exists i. split; [lia|done].
Qed.

Lemma HasSuffix_append (s suffix : string) :
  HasSuffix s suffix = true ↔ ∃ p, s = p +:+ suffix.
Proof.
  unfold HasSuffix. rewrite andb_true_iff, !bool_decide_eq_true. split.
  - intros [Hlen Hdrop].
    set (n := (String.length s - String.length suffix)%nat) in *.
    exists (string_take n s). rewrite <-Hdrop. by rewrite string_take_drop.
  - intros [p ->]. rewrite length_append. split; [lia|].
    replace (String.length p + String.length suffix - String.length suffix)%nat
      with (String.length p + 0)%nat by lia.
    by rewrite string_drop_append_r.
Qed.

Lemma Ext_json_suffix (path : string) :
  Ext path = ".json" → ∃ p, path = p +:+ ".json".
Proof.
  intros Hext. apply HasSuffix_append. unfold Ext in Hext.
  destruct (extScan_result path (String.length path)) as [Hnil|(i & Hi & Hdrop)];
    [done|congruence|].
  rewrite Hdrop in Hext.
  assert (String.length path - i = 5)%nat as Hlen
    by (by rewrite <-length_string_drop, Hext).
  unfold HasSuffix. simpl String.length.
  rewrite andb_true_iff, !bool_decide_eq_true. split; [lia|].
  by replace (String.length path - 5)%nat with i by lia.
Qed.

Lemma Ext_json_iff_HasSuffix (path : string) :
  Ext path = ".json" ↔ HasSuffix path ".json" = true.
Proof.
  rewrite HasSuffix_append. split; [apply Ext_json_suffix|].
  intros [p ->]. apply Ext_dot. by simpl.
Qed.

End extension.

(** X14. The commands [validate] and [list] and the manifest generator pick
    the same files: for every path, [filepath.Ext(path) == ".json"] holds
    exactly when [strings.HasSuffix(path, ".json")] does, so an entry is
    selected by the walk callback of [GenerateManifests] exactly when it is
    selected by those of [validateDashboards] and [listDashboards]. *)
Theorem commands_and_generator_select_the_same_files (path : string) (isDir : bool) :
  selectedByGenerate path isDir = selectedByCommands path isDir.
Proof.
  unfold selectedByGenerate, selectedByCommands. f_equal.
  destruct (HasSuffix path ".json") eqn:Hsuffix.
  - apply bool_decide_eq_true_2. by apply Ext_json_iff_HasSuffix.
  - apply bool_decide_eq_false_2. rewrite Ext_json_iff_HasSuffix. congruence.
Qed.

Section base_name.

Lemma string_drop_all (s : string) : string_drop (String.length s) s = "".
Proof. by induction s. Qed.

Lemma slash_free_app s t : slash_free s → slash_free t → slash_free (s +:+ t).
Proof. induction s as [|c s IH]; simpl; [done|]. intros [??] ?; auto. Qed.

Lemma lastElement_slash_free_suffix (s p : string) :
  slash_free s →
  lastElement (p +:+ s) (String.length p + String.length s)
  = lastElement (p +:+ s) (String.length p).
Proof.
  revert p. induction s as [|c s IH]; intros p Hs.
  - simpl. by rewrite Nat.add_0_r.
  - destruct Hs as [Hslash Hs].
    rewrite append_snoc.
    replace (String.length p + String.length (String c s))%nat
      with (String.length (p +:+ String c "") + String.length s)%nat
      by (rewrite length_append; simpl; lia).
    rewrite IH by done. rewrite length_append. simpl String.length.
    replace (String.length p + 1)%nat with (S (String.length p)) by lia.
    cbn [lastElement]. rewrite <-append_snoc.
    pose proof (get_append_r p (String c s) 0) as Hget.
    rewrite Nat.add_0_r in Hget. rewrite Hget. simpl.
    unfold IsPathSeparator. by rewrite bool_decide_eq_false_2.
Qed.

Lemma lastElement_append (p s : string) (k : nat) :
  (k ≤ String.length p)%nat →
  lastElement (p +:+ s) k = lastElement p k +:+ s.
Proof.
  induction k as [|k IH]; intros Hk; [done|].
  cbn [lastElement]. rewrite get_append_l by lia.
  destruct (String.get k p) as [c|] eqn:Hget.
  - destruct (IsPathSeparator c); [|apply IH; lia].
    apply string_drop_append_l. lia.
  - done.
Qed.

Lemma get_is_Some (s : string) (i : nat) :
  (i < String.length s)%nat → is_Some (String.get i s).
Proof.
  revert i. induction s as [|c s IH]; intros i Hi; simpl in Hi; [lia|].
  destruct i as [|i]; [by eexists|]. simpl. apply IH. lia.
Qed.

Lemma lastElement_slash_free (p : string) (k : nat) :
  (k ≤ String.length p)%nat →
  slash_free (string_drop k p) → slash_free (lastElement p k).
Proof.
  induction k as [|k IH]; intros Hlen Hk; [done|].
  cbn [lastElement]. destruct (get_is_Some p k) as [c Hget]; [lia|].
  rewrite Hget. destruct (IsPathSeparator c) eqn:Hsep; [done|].
  apply IH; [lia|]. rewrite (string_drop_get _ _ _ Hget). split; [|done].
  unfold IsPathSeparator in Hsep. by apply bool_decide_eq_false in Hsep.
Qed.

Lemma stripTrailingSlashes_none (p : string) (c : ascii) :
  c ≠ "/"%char →
  stripTrailingSlashes (p +:+ String c "") (String.length (p +:+ String c ""))
  = p +:+ String c "".
Proof.
  intros Hc. rewrite length_append. simpl String.length.
  replace (String.length p + 1)%nat with (S (String.length p)) by lia.
  cbn [stripTrailingSlashes].
  pose proof (get_append_r p (String c "") 0) as Hget.
  rewrite Nat.add_0_r in Hget. rewrite Hget. simpl.
  unfold IsPathSeparator. rewrite bool_decide_eq_false_2 by done.
  pose proof (string_take_all (p +:+ String c "")) as Hall.
  rewrite length_append in Hall. simpl String.length in Hall.
  by replace (String.length p + 1)%nat with (S (String.length p)) in Hall by lia.
Qed.

End base_name.

Section base_of_selected.

Lemma Base_of_json (path : string) :
  Ext path = ".json" → ∃ name, Base path = name +:+ ".json" ∧ slash_free name.
Proof.
  intros [p ->]%Ext_json_suffix.
  set (name := lastElement p (String.length p)).
  exists name. split.
  - unfold Base. rewrite decide_False by (by destruct p).
    change (p +:+ ".json")
      with (p +:+ String "." (String "j" (String "s" (String "o" "n")))).
    rewrite !(append_snoc _ _ (String _ _)).
    rewrite stripTrailingSlashes_none by done.
    rewrite <-!append_snoc.
    rewrite length_append, lastElement_slash_free_suffix by (by simpl).
    rewrite lastElement_append by done. fold name.
    rewrite decide_False; [done|]. by destruct name.
  - apply lastElement_slash_free; [done|]. by rewrite string_drop_all.
Qed.

Lemma dashboardName_nameOf (path : string) :
  Ext path = ".json" → dashboardName path = Some (nameOf path).
Proof.
  intros (name & Hbase & _)%Base_of_json.
  unfold dashboardName, nameOf. rewrite decide_True; [done|].
  rewrite Hbase, length_append. simpl. lia.
Qed.

End base_of_selected.

(** X15. Whenever the generator's test [filepath.Ext(path) == ".json"]
    holds, the slice [dashboardName[:len(dashboardName)-5]] is within
    bounds, and the name it yields is the base name of the path without its
    [.json] ending; the name holds no slash. *)
Theorem dashboardName_of_selected_file (path : string) :
  Ext path = ".json" →
  ∃ name, dashboardName path = Some name
          ∧ Base path = name +:+ ".json"
          ∧ slash_free name.
Proof.
  intros Hext. destruct (Base_of_json path Hext) as (name & Hbase & Hfree).
  exists name. split_and!; [|done|done].
  rewrite (dashboardName_nameOf path Hext). unfold nameOf.
  rewrite Hbase, length_append. simpl String.length.
  replace (String.length name + 5 - 5)%nat with (String.length name) by lia.
  by rewrite string_take_append.
Qed.

Lemma dashboardName_of_selected_file_witness :
  Ext "dashboards/core/cpu.json" = ".json"
  ∧ ∃ name, dashboardName "dashboards/core/cpu.json" = Some name
            ∧ Base "dashboards/core/cpu.json" = name +:+ ".json"
            ∧ slash_free name.
Proof.
  split; [reflexivity|].
  exact (dashboardName_of_selected_file "dashboards/core/cpu.json" eq_refl).
Defined.

(** * ValidateFile and the validate command *)

Section validate_command.

Context `{Host}.

Lemma validateVisit_clean (visit : Visit) (st : ValidateState) :
  Visit_err visit = None →
  ∃ st', validateVisit visit st = (st', None)
         ∧ collectedErrors st'
           = collectedErrors st ++ failures (selectedPaths [visit]).
Proof.
  intros Herr. unfold validateVisit, selectedPaths, failures. rewrite Herr.
  rewrite filter_cons, filter_nil.
  destruct (negb (Visit_isDir visit) && HasSuffix (Visit_path visit) ".json") eqn:Hsel.
  - rewrite decide_True by done. cbn [fmap list_fmap omap list_omap].
    destruct (ValidateFile (Visit_path visit)) as [err|]; eexists; (split; [done|]).
    + done.
    + simpl. by rewrite app_nil_r.
  - rewrite decide_False by done. eexists. split; [done|].
    simpl. by rewrite app_nil_r.
Qed.

Lemma selectedPaths_cons (visit : Visit) (visits : list Visit) :
  selectedPaths (visit :: visits) = selectedPaths [visit] ++ selectedPaths visits.
Proof.
  unfold selectedPaths. rewrite <-fmap_app. f_equal.
  by rewrite (filter_app _ [visit] visits).
Qed.

Lemma failures_app (files1 files2 : list string) :
  failures (files1 ++ files2) = failures files1 ++ failures files2.
Proof. unfold failures. apply omap_app. Qed.

Lemma validateWalk_clean (visits : list Visit) (st : ValidateState) :
  Forall (λ visit, Visit_err visit = None) visits →
  ∃ st', validateWalk visits st = (st', None)
         ∧ collectedErrors st' = collectedErrors st ++ failures (selectedPaths visits).
Proof.
  revert st. induction visits as [|visit rest IH]; intros st Hclean.
  - exists st. split; [done|]. by rewrite app_nil_r.
  - apply Forall_cons in Hclean as [Hvisit Hrest].
    destruct (validateVisit_clean visit st Hvisit) as (st1 & Hstep & Herrors1).
    destruct (IH st1 Hrest) as (st2 & Hwalk & Herrors2).
    exists st2. cbn [validateWalk]. rewrite Hstep, Hwalk. split; [done|].
    rewrite Herrors2, Herrors1, (selectedPaths_cons visit rest), failures_app.
    by rewrite <-app_assoc.
Qed.


Lemma validateFolders_clean (dashboardsPath : string) (folders : list string)
    (st : ValidateState) :
  walksClean dashboardsPath folders →
  ∃ st', validateFolders dashboardsPath folders st = (st', None)
         ∧ collectedErrors st'
           = collectedErrors st ++ failures (chartFiles dashboardsPath folders).
Proof.
  unfold walksClean, chartFiles.
  revert st. induction folders as [|folder rest IH]; intros st Hclean.
  - exists st. split; [done|]. by rewrite app_nil_r.
  - apply Forall_cons in Hclean as [Hfolder Hrest].
    cbn [validateFolders].
    destruct (validateWalk_clean _ (print ("INFO: Checking folder: " +:+ folder +:+ LF) st)
                Hfolder) as (st1 & -> & Herrors1).
    destruct (IH st1 Hrest) as (st2 & -> & Herrors2).
    exists st2. split; [done|].
    rewrite Herrors2, Herrors1. cbn [mbind list_bind].
    by rewrite failures_app, <-app_assoc.
Qed.


Lemma failures_nil (files : list string) :
  failures files = [] ↔ Forall (λ path, ValidateFile path = None) files.
Proof.
  unfold failures. induction files as [|path files IH]; [done|].
  cbn [omap list_omap]. rewrite Forall_cons.
  destruct (ValidateFile path); simpl; [|by rewrite IH; intuition].
  split; [done|by intros [? _]].
Qed.

Lemma length_failures (files : list string) :
  length (failures files)
  = length (filter (λ path, ValidateFile path ≠ None) files).
Proof.
  unfold failures. induction files as [|path files IH]; [done|].
  cbn [omap list_omap]. rewrite filter_cons.
  destruct (ValidateFile path) as [err|]; case_decide; try done; simpl; by rewrite ?IH.
Qed.

Lemma collectedErrors_print text st :
  collectedErrors (print text st) = collectedErrors st.
Proof. done. Qed.

Lemma collectedErrors_printErrors errors st :
  collectedErrors (printErrors errors st) = collectedErrors st.
Proof.
  unfold printErrors. revert st. induction errors as [|e errors IH]; intros st; [done|].
  simpl. by rewrite IH.
Qed.

(** X16. A dashboard file passes [ValidateFile] exactly when it can be
    read, its content decodes to a dashboard, and that dashboard is
    well-formed. *)
Theorem ValidateFile_passes_iff (filepath : string) :
  ValidateFile filepath = None
  ↔ ∃ data dashboard, os_ReadFile filepath = Ok data
                      ∧ json_Unmarshal data = Ok dashboard
                      ∧ wellFormed dashboard.
Proof.
  unfold ValidateFile. split.
  - destruct (os_ReadFile filepath) as [data|]; [|done].
    destruct (json_Unmarshal data) as [dashboard|] eqn:Hjson; [|done].
    intros Hvalid%ValidateDashboard_nil_iff. by exists data, dashboard.
  - intros (data & dashboard & -> & -> & Hwf). by apply ValidateDashboard_nil_iff.
Qed.

Lemma ValidateDashboard_message dashboard msg :
  ValidateDashboard dashboard = Some msg → ∃ rest, msg = "validation failed: " +:+ rest.
Proof.
  unfold ValidateDashboard. case_decide; [|done]. intros [= <-]. by eexists.
Qed.

(** X22. The text of a [ValidateFile] error tells the stage that failed: it
    starts with [failed to read file: ] exactly when the file could not be
    read, with [invalid JSON: ] exactly when its content did not decode,
    and with [validation failed: ] exactly when the decoded dashboard is
    not well-formed. *)
Theorem ValidateFile_error_stage (filepath msg : string) :
  ValidateFile filepath = Some msg →
  (HasPrefix msg "failed to read file: " = true
   ↔ ∃ err, os_ReadFile filepath = Err err)
  ∧ (HasPrefix msg "invalid JSON: " = true
     ↔ ∃ data err, os_ReadFile filepath = Ok data ∧ json_Unmarshal data = Err err)
  ∧ (HasPrefix msg "validation failed: " = true
     ↔ ∃ data dashboard, os_ReadFile filepath = Ok data
                         ∧ json_Unmarshal data = Ok dashboard
                         ∧ ¬ wellFormed dashboard).
Proof.
  unfold ValidateFile.
  destruct (os_ReadFile filepath) as [data|err].
  - destruct (json_Unmarshal data) as [dashboard|err] eqn:Hjson.
    + intros Hmsg. destruct (ValidateDashboard_message _ _ Hmsg) as [rest ->].
      split_and!.
      * split; [done|]. by intros [? ?].
      * split; [done|]. intros (? & ? & [= <-] & ?). congruence.
      * split; [|intros _; apply HasPrefix_app].
        intros _. exists data, dashboard. split_and!; [done..|].
        rewrite <-ValidateDashboard_nil_iff. congruence.
    + intros [= <-]. split_and!.
      * split; [done|]. by intros [? ?].
      * split; [|intros _; apply HasPrefix_app]. intros _. by exists data, err.
      * split; [done|]. intros (? & ? & [= <-] & ? & ?). congruence.
  - intros [= <-]. split_and!.
    + split; [|intros _; apply HasPrefix_app]. intros _. by exists err.
    + split; [done|]. by intros (? & ? & ? & ?).
    + split; [done|]. by intros (? & ? & ? & ?).
Qed.

(** X17. When the values file loads and no walk is passed an error, the
    validate command succeeds exactly when [ValidateFile] accepts every
    file ending in [.json] of every dashboard folder; otherwise it fails
    with [validation failed with N errors], [N] being the number of files
    that [ValidateFile] rejects. *)
Theorem validate_command_result (chartPath : string) (values : Values) :
  LoadValues (filepath_Join chartPath "values.yaml") = Ok values →
  walksClean (filepath_Join chartPath "dashboards") (Values_DashboardFolders values) →
  let files := chartFiles (filepath_Join chartPath "dashboards")
                          (Values_DashboardFolders values) in
  (validateDashboards chartPath).2
  = if decide (Forall (λ path, ValidateFile path = None) files) then None
    else Some ("validation failed with "
               +:+ fmt_d (Z.of_nat (length (filter (λ path, ValidateFile path ≠ None)
                                                   files)))
               +:+ " errors").
Proof.
  intros Hvalues Hclean files. unfold validateDashboards. rewrite Hvalues.
  destruct (validateFolders_clean _ _
              (print ("INFO: Validating dashboard files..." +:+ LF)
                     (mkValidateState "" 0 [])) Hclean) as (st & -> & Herrors).
  simpl in Herrors. fold files in Herrors.
  cbn zeta. rewrite !collectedErrors_print, Herrors.
  destruct (decide (Forall (λ path, ValidateFile path = None) files)) as [Hpass|Hpass].
  - apply failures_nil in Hpass. rewrite Hpass. by rewrite decide_False by (simpl; lia).
  - assert (failures files ≠ []) as Hne by (by rewrite failures_nil).
    rewrite decide_True by (destruct (failures files); [done|simpl; lia]).
    cbn [snd]. by rewrite collectedErrors_printErrors, !collectedErrors_print,
      Herrors, length_failures.
Qed.


End validate_command.

Lemma validate_command_result_witness :
  LoadValues (H := demoHost) "chart/values.yaml" = Ok demoValues
  ∧ (validateDashboards (H := demoHost) "chart").2
    = Some "validation failed with 1 errors".
Proof.
  split; [reflexivity|].
  refine (validate_command_result (H := demoHost) "chart" demoValues eq_refl _).
  repeat constructor.
Defined.


Example validate_command_examples :
  validateDashboards (H := demoHost) "chart"
  = ("INFO: Validating dashboard files..." +:+ LF
     +:+ "INFO: Checking folder: core" +:+ LF
     +:+ "   INFO: Validating: bad.json" +:+ LF
     +:+ "   INFO: Validating: cpu.json" +:+ LF
     +:+ LF +:+ "Validation Summary:" +:+ LF
     +:+ "   OK: Valid dashboards: 1" +:+ LF
     +:+ "   ERROR: Validation errors: 1" +:+ LF
     +:+ LF +:+ "Validation Errors:" +:+ LF
     +:+ "   - chart/dashboards/core/bad.json: validation failed: "
     +:+ "templating.list[0].type: variable type is required" +:+ LF,
     Some "validation failed with 1 errors")
  ∧ (validateDashboards (H := demoHost) "broken").2
    = Some "failed to walk folder extra: lstat broken/dashboards/extra: no such file or directory"
  ∧ (validateDashboards (H := demoHost) "missing").2
    = Some "failed to load values.yaml: failed to read values file: open missing/values.yaml: no such file or directory".
Proof. by vm_compute. Qed.

Lemma ValidateFile_error_stage_witness :
  (HasPrefix (default "" (ValidateFile (H := demoHost) "chart/dashboards/core/bad.json"))
     "validation failed: " = true
   ↔ ∃ data dashboard,
       os_ReadFile (Host := demoHost) "chart/dashboards/core/bad.json" = Ok data
       ∧ json_Unmarshal (Host := demoHost) data = Ok dashboard
       ∧ ¬ wellFormed dashboard).
Proof.
  exact (proj2 (proj2 (ValidateFile_error_stage (H := demoHost)
                         "chart/dashboards/core/bad.json" _ eq_refl))).
Defined.

(** * GenerateManifests *)

Section generate.

Context `{Host}.

Lemma manifestList_items items :
  manifestList items !! "items" = Some (DynItems items).
Proof. unfold manifestList. by rewrite lookup_insert_eq. Qed.

Lemma manifestList_insert items items' :
  <["items" := DynItems items']> (manifestList items) = manifestList items'.
Proof. unfold manifestList. by rewrite insert_insert_eq. Qed.

Lemma generateVisit_error values namespace folder visit manifests msg :
  Visit_err visit = Some msg →
  generateVisit values namespace folder visit manifests = Done (manifests, Some msg).
Proof. intros Herr. unfold generateVisit. by rewrite Herr. Qed.

Lemma generateVisit_clean values namespace folder visit items :
  Visit_err visit = None →
  generateVisit values namespace folder visit (manifestList items)
  = Done (manifestList (items ++ walkItems values namespace folder [visit]), None).
Proof.
  intros Herr. unfold generateVisit, walkItems, selectedPaths.
  rewrite Herr, filter_cons, filter_nil.
  destruct (bool_decide (Ext (Visit_path visit) = ".json")) eqn:Hext.
  - apply bool_decide_eq_true in Hext.
    rewrite (dashboardName_nameOf _ Hext), manifestList_items, manifestList_insert.
    apply Ext_json_iff_HasSuffix in Hext. rewrite Hext.
    destruct (Visit_isDir visit); simpl; [by rewrite app_nil_r|done].
  - apply bool_decide_eq_false in Hext.
    assert (HasSuffix (Visit_path visit) ".json" = false) as ->.
    { destruct (HasSuffix (Visit_path visit) ".json") eqn:Hs; [|done].
      by apply Ext_json_iff_HasSuffix in Hs. }
    rewrite andb_false_r. simpl. by rewrite app_nil_r.
Qed.

Lemma walkItems_cons values namespace folder visit visits :
  walkItems values namespace folder (visit :: visits)
  = walkItems values namespace folder [visit] ++ walkItems values namespace folder visits.
Proof. unfold walkItems. by rewrite (selectedPaths_cons visit visits), fmap_app. Qed.

Lemma generateWalk_clean values namespace folder visits items :
  Forall (λ visit, Visit_err visit = None) visits →
  generateWalk values namespace folder visits (manifestList items)
  = Done (manifestList (items ++ walkItems values namespace folder visits), None).
Proof.
  revert items. induction visits as [|visit rest IH]; intros items Hclean.
  - simpl. by rewrite app_nil_r.
  - apply Forall_cons in Hclean as [Hvisit Hrest].
    cbn [generateWalk]. rewrite generateVisit_clean by done.
    rewrite IH by done. by rewrite (walkItems_cons _ _ _ visit rest), app_assoc.
Qed.

Lemma generateWalk_error values namespace folder visits items :
  ¬ Forall (λ visit, Visit_err visit = None) visits →
  ∃ items' visit msg,
    generateWalk values namespace folder visits (manifestList items)
    = Done (manifestList items', Some msg)
    ∧ visit ∈ visits ∧ Visit_err visit = Some msg.
Proof.
  revert items. induction visits as [|visit rest IH]; intros items Hdirty.
  - destruct Hdirty. constructor.
  - cbn [generateWalk]. destruct (Visit_err visit) as [msg|] eqn:Hvisit.
    + rewrite (generateVisit_error _ _ _ _ _ msg) by done.
      exists items, visit, msg. split_and!; [done|by left|done].
    + rewrite generateVisit_clean by done.
      destruct (IH (items ++ walkItems values namespace folder [visit]))
        as (items' & v & msg & -> & Hin & Hv).
      { intros Hrest. apply Hdirty. by constructor. }
      exists items', v, msg. split_and!; [done|by right|done].
Qed.


Lemma generateFolders_outcome values namespace dashboardsPath folders items :
  generateFolders values namespace dashboardsPath folders (manifestList items) ≠ Panic.
Proof.
  revert items. induction folders as [|folder rest IH]; intros items; [done|].
  cbn [generateFolders].
  destruct (decide (Forall (λ visit, Visit_err visit = None)
              (filepath_WalkDir (filepath_Join dashboardsPath folder))))
    as [Hfolder|Hfolder].
  - rewrite generateWalk_clean by done. apply IH.
  - destruct (generateWalk_error values namespace folder _ items Hfolder)
      as (items' & v & msg & -> & _). done.
Qed.

Lemma generateFolders_error values namespace dashboardsPath folders items :
  ¬ walksClean dashboardsPath folders →
  ∃ folder visit msg,
    generateFolders values namespace dashboardsPath folders (manifestList items)
    = Done (Err ("failed to process folder " +:+ folder +:+ ": " +:+ msg))
    ∧ folder ∈ folders
    ∧ visit ∈ filepath_WalkDir (filepath_Join dashboardsPath folder)
    ∧ Visit_err visit = Some msg.
Proof.
  unfold walksClean.
  revert items. induction folders as [|folder rest IH]; intros items Hdirty.
  - destruct Hdirty. constructor.
  - cbn [generateFolders].
    destruct (decide (Forall (λ visit, Visit_err visit = None)
                (filepath_WalkDir (filepath_Join dashboardsPath folder))))
      as [Hfolder|Hfolder].
    + rewrite generateWalk_clean by done.
      destruct (IH (items ++ walkItems values namespace folder
                      (filepath_WalkDir (filepath_Join dashboardsPath folder))))
        as (f & v & msg & -> & Hin & Hv & Herr).
      { intros Hrest. apply Hdirty. by constructor. }
      exists f, v, msg. split_and!; [done|by right|done|done].
    + destruct (generateWalk_error values namespace folder _ items Hfolder)
        as (items' & v & msg & -> & Hv & Herr).
      exists folder, v, msg. split_and!; [done|by left|done|done].
Qed.

(** X19. [GenerateManifests] never panics: the type assertion on
    [manifests["items"]] always finds the slice it stored there, and the
    slice [dashboardName[:len(dashboardName)-5]] is taken only of names that
    end in [.json], whatever the files, the folders and the values are. *)
Theorem GenerateManifests_never_panics (chartPath namespace : string) :
  GenerateManifests chartPath namespace ≠ Panic.
Proof.
  unfold GenerateManifests.
  destruct (LoadValues (filepath_Join chartPath "values.yaml")) as [values|]; [|done].
  apply (generateFolders_outcome values namespace _ _ []).
Qed.


(** X21. When the values file loads and some walk is passed an error,
    [GenerateManifests] returns no manifests but the error
    [failed to process folder F: E], for a dashboard folder [F] and the
    error [E] passed to its walk. *)
Theorem GenerateManifests_walk_error (chartPath namespace : string) (values : Values) :
  LoadValues (filepath_Join chartPath "values.yaml") = Ok values →
  ¬ walksClean (filepath_Join chartPath "dashboards") (Values_DashboardFolders values) →
  ∃ folder visit msg,
    GenerateManifests chartPath namespace
    = Done (Err ("failed to process folder " +:+ folder +:+ ": " +:+ msg))
    ∧ folder ∈ Values_DashboardFolders values
    ∧ visit ∈ filepath_WalkDir
                (filepath_Join (filepath_Join chartPath "dashboards") folder)
    ∧ Visit_err visit = Some msg.
Proof.
  intros Hvalues Hdirty. unfold GenerateManifests. rewrite Hvalues.
  apply (generateFolders_error values namespace _ _ [] Hdirty).
Qed.

End generate.


Example chartItems_example :
  chartItems (H := demoHost) demoValues "monitoring" "chart/dashboards" ["core"]
  = [ dashboardManifest demoValues "monitoring" "core" "bad";
      dashboardManifest demoValues "monitoring" "core" "cpu" ].
Proof. reflexivity. Qed.

Lemma GenerateManifests_walk_error_witness :
  ∃ folder visit msg,
    GenerateManifests (H := demoHost) "broken" "monitoring"
    = Done (Err ("failed to process folder " +:+ folder +:+ ": " +:+ msg))
    ∧ folder ∈ ["core"; "extra"]
    ∧ visit ∈ filepath_WalkDir (Host := demoHost)
                (filepath_Join (Host := demoHost)
                   (filepath_Join (Host := demoHost) "broken" "dashboards") folder)
    ∧ Visit_err visit = Some msg.
Proof.
  refine (GenerateManifests_walk_error (H := demoHost) "broken" "monitoring" _ eq_refl _).
  unfold walksClean. intros Hclean.
  apply Forall_cons in Hclean as [_ Hclean].
  apply Forall_cons in Hclean as [Hextra _].
  apply Forall_cons in Hextra as [Hextra _].
  discriminate Hextra.
Defined.

Lemma GenerateManifests_never_panics_witness :
  GenerateManifests (H := demoHost) "chart" "monitoring" ≠ Panic.
Proof. exact (GenerateManifests_never_panics (H := demoHost) "chart" "monitoring"). Defined.
